(** * Strategy pattern: task processing strategies

    A shallow embedding of [4_behavioral/02_strategy/starter.py]: the
    [WorkflowTask] record, the [TaskTimer] mixin, the three concrete
    [TaskProcessor] strategies and the [TaskManager] context, followed by
    the properties of the specification that concern them.

    Python objects are mutable and shared by reference, so the embedding
    keeps them in an object store indexed by locations; every method takes
    the location of [self] and runs in a state-and-exception monad over the
    store and the system clock. *)

From stdpp Require Import gmap strings list.
From Stdlib Require Import ZArith Lia.

(** ** Python values *)

(** The values that flow into the result dictionary.  A [float] number of
    seconds is kept as an exact number of milliseconds: sums and
    differences of clock readings are exact here and rounded in Python, so
    that of a difference only the sign and the order are meant to carry
    over.  A [str] is a string of 8-bit characters, so that [len] is
    [String.length]. *)
Inductive PyVal :=
| PyNone
| PyBool (b : bool)
| PyStr (s : string)
| PyFloat (ms : Z).

#[global] Instance PyVal_eq_dec : EqDecision PyVal.
Proof. solve_decision. Defined.

(** Python truth value testing ([bool(x)], [if x:], [x and y]). *)
Definition truthy (v : PyVal) : bool :=
  match v with
  | PyNone => false
  | PyBool b => b
  | PyStr s => bool_decide (s ≠ EmptyString)
  | PyFloat ms => bool_decide (ms ≠ 0%Z)
  end.

(** [x and y] evaluates to [x] when [x] is falsy and to [y] otherwise. *)
Definition py_and (x y : PyVal) : PyVal := if truthy x then y else x.

(** [bool(x)] *)
Definition py_bool (x : PyVal) : PyVal := PyBool (truthy x).

Definition is_bool (v : PyVal) : bool :=
  match v with PyBool _ => true | _ => false end.

(** [x >= 0] for a number; [false] for every other value. *)
Definition is_nonneg_number (v : PyVal) : bool :=
  match v with PyFloat ms => bool_decide (0 ≤ ms)%Z | _ => false end.

Abbreviation PyDict := (gmap string PyVal).

(** ** Enumerations *)

Module TaskPriority.
Inductive t := LOW | MEDIUM | HIGH | URGENT.

#[global] Instance eq_dec : EqDecision t.
Proof. solve_decision. Defined.

Definition value (p : t) : string :=
  match p with
  | LOW => "low"
  | MEDIUM => "medium"
  | HIGH => "high"
  | URGENT => "urgent"
  end.
End TaskPriority.

Module Strategies.
Inductive t := STANDARD | BACKGROUND | URGENT.

Definition value (s : t) : string :=
  match s with
  | STANDARD => "standard"
  | BACKGROUND => "background"
  | URGENT => "urgent"
  end.

(** [[s.value for s in Strategies]]: members in definition order. *)
Definition get_values : list string :=
  value <$> [STANDARD; BACKGROUND; URGENT].
End Strategies.

(** ** Objects *)

Abbreviation loc := nat (only parsing).

(** [datetime.now()] and [time.time()] read the same system clock; a
    [datetime] is kept as the milliseconds it denotes. *)
Inductive datetime := Datetime (ms : Z).

#[global] Instance datetime_eq_dec : EqDecision datetime.
Proof. solve_decision. Defined.

Record WorkflowTask := mkTask {
  title : string;
  priority : TaskPriority.t;
  description : string;
  created_at : datetime;
  completed_at : option datetime
}.

(** The three concrete strategy classes of the file. *)
Inductive ProcessorClass := Urgent | Standard | Background.

#[global] Instance ProcessorClass_eq_dec : EqDecision ProcessorClass.
Proof. solve_decision. Defined.

(** A processor object: its class and the two attributes it inherits from
    [TaskTimer].  [execute_task] also guards against a processor whose
    [__str__] is not a member of [Strategies]; no class of the file is one,
    so the store admits the least extension that is: an instance of a
    subclass of one of the three classes that overrides [__str__] only
    ([renamed = Some name]). *)
Record TaskProcessor := mkProcessor {
  class_of : ProcessorClass;
  renamed : option string;
  start_time : option Z;
  end_time : option Z
}.

Record TaskManager := mkManager {
  strategy : option loc
}.

(** ** The world: system clock and object store *)

(** [now] is the clock in milliseconds.  [lag] is the time the environment
    lets pass before each successive clock access (scheduling, the cost of
    the statements in between); once exhausted no further time is lost.
    Lags are naturals: the clock never runs backwards. *)
Record World := mkWorld {
  now : Z;
  lag : list N;
  tasks : gmap loc WorkflowTask;
  processors : gmap loc TaskProcessor;
  managers : gmap loc TaskManager
}.

Definition set_tasks (f : gmap loc WorkflowTask → gmap loc WorkflowTask)
    (w : World) : World :=
  mkWorld (now w) (lag w) (f (tasks w)) (processors w) (managers w).

Definition set_processors
    (f : gmap loc TaskProcessor → gmap loc TaskProcessor) (w : World) : World :=
  mkWorld (now w) (lag w) (tasks w) (f (processors w)) (managers w).

Definition set_managers (f : gmap loc TaskManager → gmap loc TaskManager)
    (w : World) : World :=
  mkWorld (now w) (lag w) (tasks w) (processors w) (f (managers w)).

(** ** Exceptions and the monad *)

(** [NoSuchObject] has no Python counterpart: it is what a method returns
    on a location that holds no object of the expected class. *)
Inductive exn :=
| ValueError (msg : string)
| TypeError (msg : string)
| NoSuchObject.

Inductive outcome (A : Type) :=
| Ret (a : A)
| Raise (e : exn).
Arguments Ret {A} a.
Arguments Raise {A} e.

Definition M (A : Type) : Type := World → outcome A * World.

#[global] Instance M_ret : MRet M := λ A a w, (Ret a, w).

#[global] Instance M_bind : MBind M := λ A B f m w,
  match m w with
  | (Ret a, w') => f a w'
  | (Raise e, w') => (Raise e, w')
  end.

Definition raise {A} (e : exn) : M A := λ w, (Raise e, w).

(** *** Clock *)

Definition elapse (w : World) : World :=
  match lag w with
  | [] => w
  | d :: ds =>
      mkWorld (now w + Z.of_N d) ds (tasks w) (processors w) (managers w)
  end.

(** [time.time()] *)
Definition time_time : M Z := λ w,
  let w' := elapse w in (Ret (now w'), w').

(** [time.sleep(ms / 1000)]: returns no earlier than [ms] later. *)
Definition time_sleep (ms : Z) : M unit := λ w,
  let w' := elapse w in
  (Ret (),
   mkWorld (now w' + ms) (lag w') (tasks w') (processors w') (managers w')).

(** [datetime.now()] *)
Definition datetime_now : M datetime :=
  t ← time_time; mret (Datetime t).

(** *** Store access *)

Definition load_task (l : loc) : M WorkflowTask := λ w,
  match tasks w !! l with
  | Some t => (Ret t, w)
  | None => (Raise NoSuchObject, w)
  end.

Definition store_task (l : loc) (t : WorkflowTask) : M unit := λ w,
  (Ret (), set_tasks <[l := t]> w).

Definition load_processor (l : loc) : M TaskProcessor := λ w,
  match processors w !! l with
  | Some p => (Ret p, w)
  | None => (Raise NoSuchObject, w)
  end.

Definition store_processor (l : loc) (p : TaskProcessor) : M unit := λ w,
  (Ret (), set_processors <[l := p]> w).

Definition load_manager (l : loc) : M TaskManager := λ w,
  match managers w !! l with
  | Some m => (Ret m, w)
  | None => (Raise NoSuchObject, w)
  end.

Definition store_manager (l : loc) (m : TaskManager) : M unit := λ w,
  (Ret (), set_managers <[l := m]> w).

(** Object creation: a new object lives at a location not in use. *)
Definition new_task (t : WorkflowTask) : M loc := λ w,
  let self := fresh (dom (tasks w)) in
  (Ret self, set_tasks <[self := t]> w).

Definition new_processor (p : TaskProcessor) : M loc := λ w,
  let self := fresh (dom (processors w)) in
  (Ret self, set_processors <[self := p]> w).

Definition new_manager (m : TaskManager) : M loc := λ w,
  let self := fresh (dom (managers w)) in
  (Ret self, set_managers <[self := m]> w).

(** ** WorkflowTask *)

(** [WorkflowTask(title, priority, description)] *)
Definition WorkflowTask_init (title : string) (priority : TaskPriority.t)
    (description : string) : M loc :=
  created ← datetime_now;
  new_task (mkTask title priority description created None).

(** [self.completed_at = v] *)
Definition set_completed_at (self : loc) (v : option datetime) : M unit :=
  t ← load_task self;
  store_task self
    (mkTask (title t) (priority t) (description t) (created_at t) v).

Definition mark_completed (self : loc) : M unit :=
  t ← datetime_now;
  set_completed_at self (Some t).

(** A [datetime] is always truthy, so [if self.completed_at:] tests for
    [None]. *)
Definition get_status (self : loc) : M PyVal :=
  t ← load_task self;
  match completed_at t with
  | Some _ => mret (PyStr "completed")
  | None => mret PyNone
  end.

(** ** TaskTimer *)

(** [self.start_time = v] *)
Definition set_start_time (self : loc) (v : option Z) : M unit :=
  p ← load_processor self;
  store_processor self (mkProcessor (class_of p) (renamed p) v (end_time p)).

(** [self.end_time = v] *)
Definition set_end_time (self : loc) (v : option Z) : M unit :=
  p ← load_processor self;
  store_processor self (mkProcessor (class_of p) (renamed p) (start_time p) v).

Definition start_timer (self : loc) : M unit :=
  t ← time_time;
  set_start_time self (Some t).

Definition end_timer (self : loc) : M unit :=
  t ← time_time;
  set_end_time self (Some t).

Definition get_processing_time (self : loc) : M PyVal :=
  p ← load_processor self;
  (match end_time p with
   | None => end_timer self
   | Some _ => mret ()
   end);;
  p ← load_processor self;
  match end_time p, start_time p with
  | Some e, Some s => mret (PyFloat (e - s))
  | _, _ => raise (TypeError "unsupported operand type(s) for -")
  end.

(** ** The strategies *)

(** [ClassName()]: the [__init__] of each strategy class reaches, through
    [super().__init__()], [TaskTimer.__init__], which clears both times.
    [name] is [None] for the three classes themselves. *)
Definition TaskProcessor_init (c : ProcessorClass) (name : option string)
    : M loc :=
  new_processor (mkProcessor c name None None).

(** The dictionary display that ends each [process_task]. *)
Definition result_dict (status processing_time : PyVal) (strategy_used : string)
    (validation_passed : PyVal) : PyDict :=
  {[ "status" := status;
     "processing_time" := processing_time;
     "strategy_used" := PyStr strategy_used;
     "validation_passed" := validation_passed ]}.

(** The [__str__] of each class. *)
Definition class_str (c : ProcessorClass) : string :=
  match c with
  | Urgent => Strategies.value Strategies.URGENT
  | Standard => Strategies.value Strategies.STANDARD
  | Background => Strategies.value Strategies.BACKGROUND
  end.

(** What [__str__] returns for a processor object. *)
Definition reported_name (p : TaskProcessor) : string :=
  match renamed p with
  | Some name => name
  | None => class_str (class_of p)
  end.

(** [str(self)], dispatched on the class of the object. *)
Definition str (self : loc) : M string :=
  p ← load_processor self;
  mret (reported_name p).

Module UrgentTaskProcessor.
Definition validate_task (self task : loc) : M PyVal :=
  t ← load_task task;
  mret (py_bool
          (py_and (PyBool (bool_decide (priority t = TaskPriority.URGENT)))
                  (PyStr (description t)))).

Definition process_task (self task : loc) : M PyDict :=
  start_timer self;;
  validation_passed ← validate_task self task;
  mark_completed task;;
  status ← get_status task;
  processing_time ← get_processing_time self;
  strategy_used ← str self;
  mret (result_dict status processing_time strategy_used validation_passed).
End UrgentTaskProcessor.

Module StandardTaskProcessor.
Definition validate_task (self task : loc) : M PyVal :=
  t ← load_task task;
  mret (py_and (PyStr (title t))
               (PyBool (bool_decide (3 ≤ String.length (title t))))).

Definition process_task (self task : loc) : M PyDict :=
  start_timer self;;
  time_sleep 1000;;
  validation_passed ← validate_task self task;
  mark_completed task;;
  status ← get_status task;
  processing_time ← get_processing_time self;
  strategy_used ← str self;
  mret (result_dict status processing_time strategy_used validation_passed).
End StandardTaskProcessor.

Module BackgroundTaskProcessor.
Definition validate_task (self task : loc) : M PyVal :=
  t ← load_task task;
  mret (PyBool (bool_decide (priority t ≠ TaskPriority.URGENT))).

Definition process_task (self task : loc) : M PyDict :=
  start_timer self;;
  validation_passed ← validate_task self task;
  time_sleep 100;;
  mark_completed task;;
  status ← get_status task;
  processing_time ← get_processing_time self;
  strategy_used ← str self;
  mret (result_dict status processing_time strategy_used validation_passed).
End BackgroundTaskProcessor.

(** [self.validate_task(task)], dispatched on the class of the object. *)
Definition validate_task (self task : loc) : M PyVal :=
  p ← load_processor self;
  match class_of p with
  | Urgent => UrgentTaskProcessor.validate_task self task
  | Standard => StandardTaskProcessor.validate_task self task
  | Background => BackgroundTaskProcessor.validate_task self task
  end.

(** [self.process_task(task)], dispatched on the class of the object. *)
Definition process_task (self task : loc) : M PyDict :=
  p ← load_processor self;
  match class_of p with
  | Urgent => UrgentTaskProcessor.process_task self task
  | Standard => StandardTaskProcessor.process_task self task
  | Background => BackgroundTaskProcessor.process_task self task
  end.

(** ** TaskManager *)

(** [TaskManager(strategy)], [strategy] defaulting to [None]. *)
Definition TaskManager_init (strategy : option loc) : M loc :=
  new_manager (mkManager strategy).

(** [self.strategy = strategy]: the argument is stored as it comes.  It is
    annotated [TaskProcessor], but nothing checks it, and [None] is stored
    like a processor. *)
Definition set_strategy (self : loc) (strategy : option loc) : M unit :=
  _ ← load_manager self;
  store_manager self (mkManager strategy).

(** [not self.strategy] holds of [None] only: the processor classes define
    neither [__bool__] nor [__len__]. *)
Definition execute_task (self task : loc) : M PyDict :=
  m ← load_manager self;
  match strategy m with
  | None => raise (ValueError "No strategy set")
  | Some p =>
      name ← str p;
      if bool_decide (name ∉ Strategies.get_values)
      then raise (ValueError "No strategy set")
      else process_task p task
  end.

(** ** Call sequences *)

(** The calls a client of the module can make.  A call that raises leaves
    the world as it was when the exception left the method, as a client
    that catches the exception finds it. *)
Inductive call :=
| NewTask (title : string) (priority : TaskPriority.t) (description : string)
| NewProcessor (c : ProcessorClass) (name : option string)
| NewManager (strategy : option loc)
| MarkCompleted (task : loc)
| GetStatus (task : loc)
| StartTimer (processor : loc)
| EndTimer (processor : loc)
| GetProcessingTime (processor : loc)
| ProcessTask (processor task : loc)
| SetStrategy (manager : loc) (strategy : option loc)
| ExecuteTask (manager task : loc).

Definition perform (c : call) (w : World) : World :=
  match c with
  | NewTask t p d => (WorkflowTask_init t p d w).2
  | NewProcessor c name => (TaskProcessor_init c name w).2
  | NewManager s => (TaskManager_init s w).2
  | MarkCompleted t => (mark_completed t w).2
  | GetStatus t => (get_status t w).2
  | StartTimer p => (start_timer p w).2
  | EndTimer p => (end_timer p w).2
  | GetProcessingTime p => (get_processing_time p w).2
  | ProcessTask p t => (process_task p t w).2
  | SetStrategy m s => (set_strategy m s w).2
  | ExecuteTask m t => (execute_task m t w).2
  end.

Definition run (cs : list call) (w : World) : World :=
  foldl (λ w c, perform c w) w cs.

(** ** Vocabulary of the statements *)

(** The pause each class takes in [process_task], in milliseconds:
    [time.sleep(1)] for Standard, [time.sleep(0.1)] for Background, none
    for Urgent. *)
Definition latency (c : ProcessorClass) : Z :=
  match c with
  | Urgent => 0
  | Standard => 1000
  | Background => 100
  end.

(** The task [t] after [self.completed_at = Datetime c]. *)
Definition completed (t : WorkflowTask) (c : Z) : WorkflowTask :=
  mkTask (title t) (priority t) (description t) (created_at t)
         (Some (Datetime c)).

(** A computation preserves [R] when the world it leaves behind, whether it
    returns or raises, is [R]-related to the one it started in. *)
Definition preserves (R : relation World) {A} (m : M A) : Prop :=
  ∀ w, R w (m w).2.

(** [t'] is [t] at a later moment of its life: the attributes given at
    construction are those of [t], and [t'] is completed if [t] is. *)
Definition task_evolves (t t' : WorkflowTask) : Prop :=
  title t' = title t ∧ priority t' = priority t ∧
  description t' = description t ∧ created_at t' = created_at t ∧
  (is_Some (completed_at t) → is_Some (completed_at t')).

Definition tasks_evolve (w w' : World) : Prop :=
  ∀ l t, tasks w !! l = Some t →
         ∃ t', tasks w' !! l = Some t' ∧ task_evolves t t'.

(** No manager changes. *)
Definition managers_same (w w' : World) : Prop :=
  managers w' = managers w.

(** The state in which [execute_task] is to fail: no processor is set, or
    the name the set processor reports is none of the three recognised
    ones. *)
Definition invalid_state (w : World) (m : TaskManager) : Prop :=
  strategy m = None ∨
  ∃ p obj, strategy m = Some p ∧ processors w !! p = Some obj ∧
           reported_name obj ∉ ["urgent"; "standard"; "background"].

(** Every processor is still there, with the class and the name it had. *)
Definition processors_kept (w w' : World) : Prop :=
  ∀ l p, processors w !! l = Some p →
         ∃ p', processors w' !! l = Some p' ∧
               class_of p' = class_of p ∧ renamed p' = renamed p.

(** The milliseconds a [datetime] denotes. *)
Definition datetime_ms (d : datetime) : Z :=
  match d with Datetime ms => ms end.

(** No task was created in the future, and none was completed before it
    was created or in the future. *)
Definition timestamps_ordered (w : World) : Prop :=
  ∀ l t, tasks w !! l = Some t →
         (datetime_ms (created_at t) ≤ now w)%Z ∧
         ∀ d, completed_at t = Some d →
              (datetime_ms (created_at t) ≤ datetime_ms d ≤ now w)%Z.

Definition keeps_timestamps_ordered (w w' : World) : Prop :=
  (timestamps_ordered w → timestamps_ordered w') ∧ (now w ≤ now w')%Z.

(** The calls that assign the strategy of the manager at [manager]. *)
Definition sets_strategy_of (manager : loc) (c : call) : Prop :=
  ∃ s, c = SetStrategy manager s.

(** The task store is as it was and the clock has not gone back. *)
Definition later (w w' : World) : Prop :=
  tasks w' = tasks w ∧ (now w ≤ now w')%Z.

(** The task at [task], if there is one, is as it was. *)
Definition task_kept (task : loc) (w w' : World) : Prop :=
  ∀ t, tasks w !! task = Some t → tasks w' !! task = Some t.

(** A task that was completed, and not in the future, is completed still,
    neither earlier than it was nor in the future. *)
Definition completion_advances (w w' : World) : Prop :=
  ∀ l t d, tasks w !! l = Some t → completed_at t = Some d →
           (datetime_ms d ≤ now w)%Z →
           ∃ t' d', tasks w' !! l = Some t' ∧ completed_at t' = Some d' ∧
                    (datetime_ms d ≤ datetime_ms d' ≤ now w')%Z.


(** ** Example objects and worlds *)

Definition task_breach : WorkflowTask :=
  mkTask "Security breach" TaskPriority.URGENT "Critical fix needed"
         (Datetime 0) None.

Definition task_docs : WorkflowTask :=
  mkTask "Update docs" TaskPriority.LOW "Documentation update"
         (Datetime 0) None.

Definition task_ab : WorkflowTask :=
  mkTask "AB" TaskPriority.MEDIUM "x" (Datetime 0) None.

(** A task with the empty title, medium priority and description "x". *)
Definition task_untitled : WorkflowTask :=
  mkTask EmptyString TaskPriority.MEDIUM "x" (Datetime 0) None.

(** A processor as its constructor leaves it. *)
Definition fresh_processor (c : ProcessorClass) : TaskProcessor :=
  mkProcessor c None None None.

(** An instance of [class Express(UrgentTaskProcessor)] whose [__str__]
    returns ["express"]. *)
Definition express_processor : TaskProcessor :=
  mkProcessor Urgent (Some "express") None None.

(** Tasks 0-3; processors 0 (urgent), 1 (standard), 2 (background) and
    3 (express); managers 0 (no strategy), 1 (urgent), 2 (standard) and
    3 (express).  The clock stands at 0 and only [time.sleep] moves it. *)
Definition office : World :=
  mkWorld 0 []
    {[ 0 := task_breach; 1 := task_docs; 2 := task_ab; 3 := task_untitled ]}
    {[ 0 := fresh_processor Urgent; 1 := fresh_processor Standard;
       2 := fresh_processor Background; 3 := express_processor ]}
    {[ 0 := mkManager None; 1 := mkManager (Some 0);
       2 := mkManager (Some 1); 3 := mkManager (Some 3) ]}.

(** [office] with a clock that loses 2 ms before each of its next twenty
    accesses. *)
Definition busy_office : World :=
  mkWorld 0 (replicate 20 2%N) (tasks office) (processors office)
          (managers office).

(** A single task, completed at 10; the clock stands at 10 and loses 5 ms
    before its next access. *)
Definition desk : World :=
  mkWorld 10 [5%N] {[ 0 := completed task_docs 10 ]} ∅ ∅.

(** A manager runs the task at [task] twice with the processor it holds;
    then the processor at [urgent] runs the same task. *)
Definition twice_then_urgent (manager task urgent : loc)
    : M (PyDict * PyDict * PyDict) :=
  first ← execute_task manager task;
  second ← execute_task manager task;
  third ← process_task urgent task;
  mret (first, second, third).

(** * Properties *)

(** ** The clock *)

Lemma elapse_tasks w : tasks (elapse w) = tasks w.
Proof. unfold elapse. by destruct (lag w). Qed.

Lemma elapse_processors w : processors (elapse w) = processors w.
Proof. unfold elapse. by destruct (lag w). Qed.

Lemma elapse_managers w : managers (elapse w) = managers w.
Proof. unfold elapse. by destruct (lag w). Qed.

Lemma elapse_now w : (now w ≤ now (elapse w))%Z.
Proof. unfold elapse. destruct (lag w); simpl; lia. Qed.

(** ** Equations of the methods *)

Lemma bind_eq {A B} (m : M A) (f : A → M B) w :
  (m ≫= f) w =
  match m w with
  | (Ret a, w') => f a w'
  | (Raise e, w') => (Raise e, w')
  end.
Proof. reflexivity. Qed.

Lemma time_sleep_eq ms w :
  time_sleep ms w =
  (Ret (), mkWorld (now (elapse w) + ms) (lag (elapse w))
                   (tasks w) (processors w) (managers w)).
Proof.
  unfold time_sleep.
  by rewrite elapse_tasks, elapse_processors, elapse_managers.
Qed.

Lemma start_timer_eq w self p :
  processors w !! self = Some p →
  start_timer self w =
    (Ret (),
     set_processors
       <[self := mkProcessor (class_of p) (renamed p)
                             (Some (now (elapse w))) (end_time p)]>
       (elapse w)).
Proof.
  intros H.
  unfold start_timer, set_start_time, time_time, load_processor, store_processor.
  repeat (rewrite bind_eq || (progress cbn)).
  by rewrite elapse_processors, H.
Qed.

Lemma end_timer_eq w self p :
  processors w !! self = Some p →
  end_timer self w =
    (Ret (),
     set_processors
       <[self := mkProcessor (class_of p) (renamed p)
                             (start_time p) (Some (now (elapse w)))]>
       (elapse w)).
Proof.
  intros H.
  unfold end_timer, set_end_time, time_time, load_processor, store_processor.
  repeat (rewrite bind_eq || (progress cbn)).
  by rewrite elapse_processors, H.
Qed.

Lemma mark_completed_eq w self t :
  tasks w !! self = Some t →
  mark_completed self w =
    (Ret (), set_tasks <[self := completed t (now (elapse w))]> (elapse w)).
Proof.
  intros H.
  unfold mark_completed, set_completed_at, datetime_now, time_time,
    load_task, store_task.
  repeat (rewrite bind_eq || (progress cbn)).
  by rewrite elapse_tasks, H.
Qed.

Lemma WorkflowTask_init_eq title priority description w :
  WorkflowTask_init title priority description w =
    (Ret (fresh (dom (tasks w))),
     set_tasks
       <[fresh (dom (tasks w)) :=
           mkTask title priority description
                  (Datetime (now (elapse w))) None]>
       (elapse w)).
Proof.
  unfold WorkflowTask_init, datetime_now, time_time, new_task.
  repeat (rewrite bind_eq || (progress cbn)).
  by rewrite elapse_tasks.
Qed.

Lemma get_status_eq w self t :
  tasks w !! self = Some t →
  get_status self w =
    (Ret (match completed_at t with
          | Some _ => PyStr "completed"
          | None => PyNone
          end), w).
Proof.
  intros H. unfold get_status, load_task.
  rewrite bind_eq, H. by destruct (completed_at t).
Qed.

Lemma str_eq w self p :
  processors w !! self = Some p → str self w = (Ret (reported_name p), w).
Proof. intros H. unfold str, load_processor. by rewrite bind_eq, H. Qed.

(** [end_time] is [None]: the timer is stopped now. *)
Lemma get_processing_time_running w self p s :
  processors w !! self = Some p →
  start_time p = Some s →
  end_time p = None →
  get_processing_time self w =
    (Ret (PyFloat (now (elapse w) - s)),
     set_processors
       <[self := mkProcessor (class_of p) (renamed p)
                             (Some s) (Some (now (elapse w)))]>
       (elapse w)).
Proof.
  intros H Hs He. unfold get_processing_time.
  rewrite bind_eq. unfold load_processor at 1. rewrite H, He.
  rewrite bind_eq, (end_timer_eq _ _ _ H).
  rewrite bind_eq. unfold load_processor. cbn. rewrite lookup_insert_eq. cbn.
  by rewrite Hs.
Qed.

(** [end_time] is already set: it is used as it stands. *)
Lemma get_processing_time_stopped w self p s e :
  processors w !! self = Some p →
  start_time p = Some s →
  end_time p = Some e →
  get_processing_time self w = (Ret (PyFloat (e - s)), w).
Proof.
  intros H Hs He. unfold get_processing_time.
  rewrite bind_eq. unfold load_processor at 1. rewrite H, He.
  rewrite bind_eq. cbn. rewrite bind_eq. unfold load_processor.
  by rewrite H, He, Hs.
Qed.

Lemma urgent_validate_eq w self task t :
  tasks w !! task = Some t →
  UrgentTaskProcessor.validate_task self task w =
    (Ret (py_bool
            (py_and (PyBool (bool_decide (priority t = TaskPriority.URGENT)))
                    (PyStr (description t)))), w).
Proof.
  intros H. unfold UrgentTaskProcessor.validate_task, load_task.
  by rewrite bind_eq, H.
Qed.

Lemma standard_validate_eq w self task t :
  tasks w !! task = Some t →
  StandardTaskProcessor.validate_task self task w =
    (Ret (py_and (PyStr (title t))
                 (PyBool (bool_decide (3 ≤ String.length (title t))))), w).
Proof.
  intros H. unfold StandardTaskProcessor.validate_task, load_task.
  by rewrite bind_eq, H.
Qed.

Lemma background_validate_eq w self task t :
  tasks w !! task = Some t →
  BackgroundTaskProcessor.validate_task self task w =
    (Ret (PyBool (bool_decide (priority t ≠ TaskPriority.URGENT))), w).
Proof.
  intros H. unfold BackgroundTaskProcessor.validate_task, load_task.
  by rewrite bind_eq, H.
Qed.

(** Side conditions of the equations: a lookup in a world built from
    [elapse] and the setters. *)
Ltac lookup_side :=
  repeat first
    [ progress cbn
    | rewrite elapse_tasks | rewrite elapse_processors | rewrite elapse_managers
    | rewrite lookup_insert_eq ];
  first [eassumption | reflexivity].

(** Runs a method body statement by statement. *)
Ltac exec :=
  repeat first
    [ rewrite bind_eq
    | erewrite start_timer_eq by lookup_side
    | erewrite urgent_validate_eq by lookup_side
    | erewrite standard_validate_eq by lookup_side
    | erewrite background_validate_eq by lookup_side
    | rewrite time_sleep_eq
    | erewrite mark_completed_eq by lookup_side
    | erewrite get_status_eq by lookup_side
    | erewrite get_processing_time_stopped by lookup_side
    | erewrite get_processing_time_running by lookup_side
    | erewrite str_eq by lookup_side
    | progress cbn ].

(** Orders the clock readings met in the goal. *)
Ltac clock :=
  repeat match goal with
  | |- context [elapse ?x] =>
      lazymatch goal with
      | _ : (now x ≤ now (elapse x))%Z |- _ => fail
      | _ => pose proof (elapse_now x)
      end
  end;
  cbn in *; repeat split; lia.

(** What [process_task] does on a processor [p] and a task [t] that exist:
    it returns, with the four-entry dictionary; [s], [c] and [e] are the
    readings of the clock that end up in [start_time], [completed_at] and
    [end_time].  An [end_time] left by an earlier call is not refreshed. *)
Lemma process_task_spec w self task p t :
  processors w !! self = Some p →
  tasks w !! task = Some t →
  ∃ w' s c e v,
    process_task self task w =
      (Ret (result_dict (PyStr "completed") (PyFloat (e - s))
                        (reported_name p) v), w') ∧
    validate_task self task w = (Ret v, w) ∧
    tasks w' = <[task := completed t c]> (tasks w) ∧
    processors w' =
      <[self := mkProcessor (class_of p) (renamed p) (Some s) (Some e)]>
        (processors w) ∧
    managers w' = managers w ∧
    (now w ≤ s)%Z ∧ (s + latency (class_of p) ≤ c)%Z ∧ (c ≤ now w')%Z ∧
    match end_time p with
    | None => (c ≤ e)%Z ∧ e = now w'
    | Some e0 => e = e0
    end.
Proof.
  intros Hp Ht.
  unfold process_task, validate_task, load_processor. rewrite !bind_eq, Hp.
  destruct p as [cl nm st [e0|]]; destruct cl;
    cbn [class_of end_time renamed start_time];
    unfold UrgentTaskProcessor.process_task,
      StandardTaskProcessor.process_task,
      BackgroundTaskProcessor.process_task;
    exec; do 5 eexists; (split; [reflexivity|]); (split; [reflexivity|]); cbn;
    rewrite ?elapse_tasks, ?elapse_processors, ?elapse_managers; cbn;
    rewrite ?elapse_tasks, ?elapse_processors, ?elapse_managers; cbn;
    rewrite ?elapse_tasks, ?elapse_processors, ?elapse_managers,
      ?insert_insert_eq;
    (split; [reflexivity|]); (split; [reflexivity|]); (split; [reflexivity|]);
    clock.
Qed.

(** ** Relations kept by every method

    A relation that is reflexive and transitive and kept by the primitive
    statements is kept by every method built from them with [≫=],
    whichever way the method is left. *)

Section Preservation.
Context (R : relation World) `{!PreOrder R}.

Lemma preserves_ret {A} (a : A) : preserves R (mret a).
Proof. intros w. reflexivity. Qed.

Lemma preserves_raise {A} e : preserves R (@raise A e).
Proof. intros w. reflexivity. Qed.

Lemma preserves_bind {A B} (m : M A) (f : A → M B) :
  preserves R m → (∀ a, preserves R (f a)) → preserves R (m ≫= f).
Proof.
  intros Hm Hf w. rewrite bind_eq. specialize (Hm w).
  destruct (m w) as [[a|e] w1]; cbn in *; [|done].
  etrans; [exact Hm | apply Hf].
Qed.

Lemma preserves_run cs :
  (∀ c w, R w (perform c w)) → ∀ w, R w (run cs w).
Proof.
  intros Hstep. unfold run. induction cs as [|c cs IH]; intros w; cbn.
  - reflexivity.
  - etrans; [apply Hstep | apply IH].
Qed.
End Preservation.

Lemma task_evolves_refl t : task_evolves t t.
Proof. by repeat split. Qed.

#[local] Instance tasks_evolve_preorder : PreOrder tasks_evolve.
Proof.
  split.
  - intros w l t H. exists t. split; [done | apply task_evolves_refl].
  - intros w1 w2 w3 H12 H23 l t H.
    destruct (H12 l t H) as (t2 & H2 & E2).
    destruct (H23 l t2 H2) as (t3 & H3 & E3).
    exists t3. split; [done|].
    destruct E2 as (?&?&?&?&?), E3 as (?&?&?&?&?).
    repeat split; try congruence. auto.
Qed.

#[local] Instance managers_same_preorder : PreOrder managers_same.
Proof.
  split.
  - by intros w.
  - intros w1 w2 w3 H12 H23. unfold managers_same in *. congruence.
Qed.

Lemma tasks_evolve_same w w' : tasks w' = tasks w → tasks_evolve w w'.
Proof.
  intros E l t H. exists t. rewrite E. split; [done | apply task_evolves_refl].
Qed.

(** One step through a method body. *)
Ltac preserves_step :=
  first
    [ apply preserves_ret; apply _
    | apply preserves_raise; apply _
    | apply preserves_bind; [apply _ | | intros ?]
    | match goal with
      | |- preserves _ (match ?x with _ => _ end) => destruct x
      | |- preserves _ (if ?x then _ else _) => destruct x
      end ].

(** A statement that leaves the task store alone. *)
Ltac frame_tasks :=
  intros w; apply tasks_evolve_same; cbn;
  repeat match goal with
         | |- context [match ?x with _ => _ end] => destruct x
         end;
  cbn; rewrite ?elapse_tasks; reflexivity.

Lemma time_time_tasks : preserves tasks_evolve time_time.
Proof. frame_tasks. Qed.
Lemma time_sleep_tasks ms : preserves tasks_evolve (time_sleep ms).
Proof. frame_tasks. Qed.
Lemma load_task_tasks l : preserves tasks_evolve (load_task l).
Proof.
  intros w; apply tasks_evolve_same; unfold load_task.
  by destruct (tasks w !! l).
Qed.
Lemma load_processor_tasks l : preserves tasks_evolve (load_processor l).
Proof.
  intros w; apply tasks_evolve_same; unfold load_processor.
  by destruct (processors w !! l).
Qed.
Lemma load_manager_tasks l : preserves tasks_evolve (load_manager l).
Proof.
  intros w; apply tasks_evolve_same; unfold load_manager.
  by destruct (managers w !! l).
Qed.
Lemma store_processor_tasks l p : preserves tasks_evolve (store_processor l p).
Proof. frame_tasks. Qed.
Lemma store_manager_tasks l p : preserves tasks_evolve (store_manager l p).
Proof. frame_tasks. Qed.
Lemma new_processor_tasks p : preserves tasks_evolve (new_processor p).
Proof. frame_tasks. Qed.
Lemma new_manager_tasks p : preserves tasks_evolve (new_manager p).
Proof. frame_tasks. Qed.
Lemma new_task_tasks t : preserves tasks_evolve (new_task t).
Proof.
  intros w l t0 H. cbn. exists t0. split; [|apply task_evolves_refl].
  rewrite lookup_insert_ne; [done|].
  intros <-. apply (is_fresh (dom (tasks w))). by apply elem_of_dom.
Qed.
Lemma set_completed_at_tasks self d :
  preserves tasks_evolve (set_completed_at self (Some d)).
Proof.
  intros w. unfold set_completed_at, load_task. rewrite bind_eq.
  destruct (tasks w !! self) as [t|] eqn:E; cbn; [|reflexivity].
  intros l t0 H. cbn. destruct (decide (l = self)) as [->|Hne].
  - rewrite lookup_insert_eq. eexists; split; [done|].
    rewrite E in H. injection H as <-. by repeat split.
  - rewrite lookup_insert_ne by done. exists t0.
    split; [done | apply task_evolves_refl].
Qed.

Create HintDb preserves.
#[local] Hint Resolve time_time_tasks time_sleep_tasks load_task_tasks
  load_processor_tasks load_manager_tasks store_processor_tasks
  store_manager_tasks new_processor_tasks new_manager_tasks new_task_tasks
  set_completed_at_tasks : preserves.

(** A statement that leaves the manager store alone. *)
Ltac frame_managers :=
  intros w; unfold managers_same; cbn;
  repeat match goal with
         | |- context [match ?x with _ => _ end] => destruct x
         end;
  cbn; rewrite ?elapse_managers; reflexivity.

Lemma time_time_managers : preserves managers_same time_time.
Proof. frame_managers. Qed.
Lemma time_sleep_managers ms : preserves managers_same (time_sleep ms).
Proof. frame_managers. Qed.
Lemma load_task_managers l : preserves managers_same (load_task l).
Proof.
  intros w; unfold managers_same, load_task. by destruct (tasks w !! l).
Qed.
Lemma load_processor_managers l : preserves managers_same (load_processor l).
Proof.
  intros w; unfold managers_same, load_processor.
  by destruct (processors w !! l).
Qed.
Lemma load_manager_managers l : preserves managers_same (load_manager l).
Proof.
  intros w; unfold managers_same, load_manager. by destruct (managers w !! l).
Qed.
Lemma store_task_managers l t : preserves managers_same (store_task l t).
Proof. frame_managers. Qed.
Lemma store_processor_managers l p :
  preserves managers_same (store_processor l p).
Proof. frame_managers. Qed.
Lemma new_task_managers t : preserves managers_same (new_task t).
Proof. frame_managers. Qed.
Lemma new_processor_managers p : preserves managers_same (new_processor p).
Proof. frame_managers. Qed.

#[local] Hint Resolve time_time_managers time_sleep_managers load_task_managers
  load_processor_managers load_manager_managers store_task_managers
  store_processor_managers new_task_managers new_processor_managers : preserves.

(** Unfolds the methods down to the statements above and walks through
    them. *)
Ltac methods :=
  unfold execute_task, process_task, validate_task,
    UrgentTaskProcessor.process_task, StandardTaskProcessor.process_task,
    BackgroundTaskProcessor.process_task,
    UrgentTaskProcessor.validate_task, StandardTaskProcessor.validate_task,
    BackgroundTaskProcessor.validate_task,
    get_processing_time, start_timer, end_timer, set_start_time, set_end_time,
    str, get_status, mark_completed, WorkflowTask_init, TaskProcessor_init,
    TaskManager_init, datetime_now;
  repeat (solve [eauto with preserves] || preserves_step).

Lemma set_completed_at_managers self v :
  preserves managers_same (set_completed_at self v).
Proof. unfold set_completed_at. methods. Qed.
#[local] Hint Resolve set_completed_at_managers : preserves.

Lemma set_strategy_tasks self p : preserves tasks_evolve (set_strategy self p).
Proof. unfold set_strategy. methods. Qed.
#[local] Hint Resolve set_strategy_tasks : preserves.

Lemma process_task_tasks self task :
  preserves tasks_evolve (process_task self task).
Proof. methods. Qed.
Lemma execute_task_tasks self task :
  preserves tasks_evolve (execute_task self task).
Proof. methods. Qed.
Lemma process_task_managers self task :
  preserves managers_same (process_task self task).
Proof. methods. Qed.

Lemma perform_tasks c w : tasks_evolve w (perform c w).
Proof.
  destruct c; unfold perform;
    match goal with
    | |- _ _ (?m w).2 => revert w; change (preserves tasks_evolve m)
    end;
    methods.
Qed.

(** ** The result dictionary *)

Lemma result_dict_status st pt nm v : result_dict st pt nm v !! "status" = Some st.
Proof. reflexivity. Qed.

Lemma result_dict_processing_time st pt nm v :
  result_dict st pt nm v !! "processing_time" = Some pt.
Proof. reflexivity. Qed.

Lemma result_dict_strategy_used st pt nm v :
  result_dict st pt nm v !! "strategy_used" = Some (PyStr nm).
Proof. reflexivity. Qed.

Lemma result_dict_validation_passed st pt nm v :
  result_dict st pt nm v !! "validation_passed" = Some v.
Proof. reflexivity. Qed.

Lemma result_dict_dom st pt nm v :
  dom (result_dict st pt nm v) =
  {[ "status"; "processing_time"; "strategy_used"; "validation_passed" ]}.
Proof.
  unfold result_dict. rewrite !dom_insert_L, dom_singleton_L. set_solver.
Qed.

(** The parts of the result that do not depend on the validation rule or
    on the timer. *)
Lemma process_task_result_shape w self task p t :
  processors w !! self = Some p →
  tasks w !! task = Some t →
  ∃ res w' d v,
    process_task self task w = (Ret res, w') ∧
    dom res =
      {[ "status"; "processing_time"; "strategy_used"; "validation_passed" ]} ∧
    res !! "status" = Some (PyStr "completed") ∧
    res !! "processing_time" = Some (PyFloat d) ∧
    res !! "strategy_used" = Some (PyStr (reported_name p)) ∧
    res !! "validation_passed" = Some v ∧
    validate_task self task w = (Ret v, w).
Proof.
  intros Hp Ht.
  destruct (process_task_spec w self task p t Hp Ht)
    as (w' & s & c & e & v & Hrun & Hv & _).
  eexists _, w', _, v. split; [exact Hrun|].
  split; [apply result_dict_dom|]. by repeat split.
Qed.

(** ** The Standard validation rule *)

(** [task.title and len(task.title) >= 3] has the truth value of
    [len(task.title) >= 3]; it is that boolean for a title that is not
    empty, and the empty title itself otherwise. *)
Lemma standard_validation w self task p t :
  processors w !! self = Some p →
  class_of p = Standard →
  tasks w !! task = Some t →
  ∃ res w' v,
    process_task self task w = (Ret res, w') ∧
    res !! "validation_passed" = Some v ∧
    truthy v = bool_decide (3 ≤ String.length (title t)) ∧
    (title t ≠ EmptyString →
     v = PyBool (bool_decide (3 ≤ String.length (title t)))) ∧
    (title t = EmptyString → v = PyStr EmptyString).
Proof.
  intros Hp Hc Ht.
  destruct (process_task_spec w self task p t Hp Ht)
    as (w' & s & c & e & v & Hrun & Hv & _).
  unfold validate_task, load_processor in Hv. rewrite bind_eq, Hp, Hc in Hv.
  rewrite (standard_validate_eq _ _ _ _ Ht) in Hv. injection Hv as <-.
  eexists _, w', _. split; [exact Hrun|].
  split; [apply result_dict_validation_passed|].
  unfold py_and. cbn.
  destruct (decide (title t = EmptyString)) as [He|He].
  - rewrite (bool_decide_eq_false_2 (title t ≠ EmptyString)) by tauto. cbn.
    rewrite He. by repeat split.
  - rewrite (bool_decide_eq_true_2 _ He). by repeat split.
Qed.

(** ** The timer across calls *)

Lemma elapse_idle w : lag w = [] → elapse w = w.
Proof. intros H. unfold elapse. by rewrite H. Qed.

Lemma latency_nonneg c : (0 ≤ latency c)%Z.
Proof. destruct c; cbn; lia. Qed.

(** A processor that has not been used takes at least its latency. *)
Lemma unused_processing_time w self task p t :
  processors w !! self = Some p →
  tasks w !! task = Some t →
  end_time p = None →
  ∃ res w' d,
    process_task self task w = (Ret res, w') ∧
    res !! "processing_time" = Some (PyFloat d) ∧
    (latency (class_of p) ≤ d)%Z.
Proof.
  intros Hp Ht He.
  destruct (process_task_spec w self task p t Hp Ht)
    as (w' & s & c & e & v & Hrun & _ & _ & _ & _ & Hs & Hc & Hw & Hend).
  rewrite He in Hend. destruct Hend as [Hce _].
  eexists _, w', _. split; [exact Hrun|].
  split; [apply result_dict_processing_time | lia].
Qed.

(** A processor that has been used keeps its [end_time]: the processing
    time of every later call is that old reading less the new
    [start_time]. *)
Lemma reused_processing_time w self task p t e0 :
  processors w !! self = Some p →
  tasks w !! task = Some t →
  end_time p = Some e0 →
  (e0 ≤ now w)%Z →
  ∃ res w' d,
    process_task self task w = (Ret res, w') ∧
    res !! "processing_time" = Some (PyFloat d) ∧
    (d ≤ 0)%Z.
Proof.
  intros Hp Ht He Hnow.
  destruct (process_task_spec w self task p t Hp Ht)
    as (w' & s & c & e & v & Hrun & _ & _ & _ & _ & Hs & Hc & Hw & Hend).
  rewrite He in Hend. subst e.
  eexists _, w', _. split; [exact Hrun|].
  split; [apply result_dict_processing_time | lia].
Qed.

(** [process_task] leaves an [end_time] that is not in the future. *)
Lemma process_task_end_time w self task p t :
  processors w !! self = Some p →
  tasks w !! task = Some t →
  (∀ e0, end_time p = Some e0 → (e0 ≤ now w)%Z) →
  ∃ res w' p' e,
    process_task self task w = (Ret res, w') ∧
    processors w' !! self = Some p' ∧
    end_time p' = Some e ∧ (e ≤ now w')%Z.
Proof.
  intros Hp Ht Hold.
  destruct (process_task_spec w self task p t Hp Ht)
    as (w' & s & c & e & v & Hrun & _ & _ & Hprocs & _ & Hs & Hc & Hw & Hend).
  eexists _, w', _, e. split; [exact Hrun|].
  split; [rewrite Hprocs; apply lookup_insert_eq|].
  split; [reflexivity|].
  destruct (end_time p) as [e0|].
  - subst e. specialize (Hold e0 eq_refl).
    pose proof (latency_nonneg (class_of p)). lia.
  - lia.
Qed.

(** On a clock that only [time.sleep] moves, a processor that has not been
    used reports exactly its latency: 0 for Urgent, 100 for Background,
    1000 for Standard. *)
Lemma idle_clock_processing_time w self task p t :
  lag w = [] →
  processors w !! self = Some p →
  tasks w !! task = Some t →
  end_time p = None →
  ∃ res w',
    process_task self task w = (Ret res, w') ∧
    res !! "processing_time" = Some (PyFloat (latency (class_of p))) ∧
    lag w' = [].
Proof.
  intros Hl Hp Ht He.
  unfold process_task, load_processor. rewrite bind_eq, Hp.
  destruct p as [cl nm st en]; cbn in He; subst en; destruct cl;
    cbn [class_of];
    unfold UrgentTaskProcessor.process_task,
      StandardTaskProcessor.process_task,
      BackgroundTaskProcessor.process_task;
    exec; do 2 eexists; (split; [reflexivity|]);
    rewrite result_dict_processing_time;
    repeat (progress (unfold elapse; cbn; rewrite ?Hl));
    (split; [f_equal; f_equal; lia | reflexivity]).
Qed.

(** With time passing between the calls, a second [mark_completed] leaves
    a world other than the first did. *)
Lemma mark_completed_not_idempotent :
  (mark_completed 0 busy_office).2 ≠
  (mark_completed 0 (mark_completed 0 busy_office).2).2.
Proof. vm_compute. discriminate. Qed.

(** ** What a call does to a manager *)


(** ** What a call does to a completed task *)

#[local] Instance task_kept_preorder task : PreOrder (task_kept task).
Proof.
  split.
  - by intros w t H.
  - intros w1 w2 w3 H12 H23 t H. auto.
Qed.

#[local] Instance completion_advances_preorder : PreOrder completion_advances.
Proof.
  split.
  - intros w l t d Ht Hd Hnow. exists t, d. repeat split; (done || lia).
  - intros w1 w2 w3 H12 H23 l t d Ht Hd Hnow.
    destruct (H12 l t d Ht Hd Hnow) as (t2 & d2 & Ht2 & Hd2 & Hle2).
    destruct (H23 l t2 d2 Ht2 Hd2 ltac:(lia)) as (t3 & d3 & Ht3 & Hd3 & Hle3).
    exists t3, d3. repeat split; (done || lia).
Qed.

(** A statement that leaves the task store alone and does not set the
    clock back. *)
Ltac frame_later :=
  intros w; split; cbn;
  repeat match goal with
         | |- context [match ?x with _ => _ end] => destruct x
         end;
  cbn; rewrite ?elapse_tasks; try reflexivity;
  try (pose proof (elapse_now w); lia).

Lemma time_time_later : preserves later time_time.
Proof. frame_later. Qed.

Lemma sleep_1000_later : preserves later (time_sleep 1000).
Proof. frame_later. Qed.

Lemma sleep_100_later : preserves later (time_sleep 100).
Proof. frame_later. Qed.

Lemma load_task_later l : preserves later (load_task l).
Proof.
  intros w; unfold load_task; destruct (tasks w !! l); split; cbn;
    (reflexivity || lia).
Qed.

Lemma load_processor_later l : preserves later (load_processor l).
Proof.
  intros w; unfold load_processor; destruct (processors w !! l); split; cbn;
    (reflexivity || lia).
Qed.

Lemma load_manager_later l : preserves later (load_manager l).
Proof.
  intros w; unfold load_manager; destruct (managers w !! l); split; cbn;
    (reflexivity || lia).
Qed.

Lemma store_processor_later l p : preserves later (store_processor l p).
Proof. frame_later. Qed.

Lemma store_manager_later l m : preserves later (store_manager l m).
Proof. frame_later. Qed.

Lemma new_processor_later p : preserves later (new_processor p).
Proof. frame_later. Qed.

Lemma new_manager_later m : preserves later (new_manager m).
Proof. frame_later. Qed.

Lemma later_task_kept task {A} (m : M A) :
  preserves later m → preserves (task_kept task) m.
Proof. intros H w t Ht. destruct (H w) as [E _]. by rewrite E. Qed.

Lemma later_completion_advances {A} (m : M A) :
  preserves later m → preserves completion_advances m.
Proof.
  intros H w l t d Ht Hd Hnow. destruct (H w) as [E Hle].
  exists t, d. rewrite E. repeat split; (done || lia).
Qed.

(** [mark_completed] on a location that holds no task. *)
Lemma mark_completed_missing w self :
  tasks w !! self = None →
  tasks (mark_completed self w).2 = tasks w ∧
  now (mark_completed self w).2 = now (elapse w).
Proof.
  intros Ht.
  unfold mark_completed, set_completed_at, datetime_now, time_time, load_task.
  repeat (rewrite bind_eq || (progress cbn)).
  rewrite elapse_tasks, Ht. cbn. by rewrite elapse_tasks.
Qed.

Lemma mark_completed_task_kept task self :
  self ≠ task → preserves (task_kept task) (mark_completed self).
Proof.
  intros Hne w t Ht.
  destruct (tasks w !! self) as [t0|] eqn:Hself.
  - rewrite (mark_completed_eq _ _ _ Hself). cbn.
    rewrite lookup_insert_ne by done. by rewrite elapse_tasks.
  - destruct (mark_completed_missing w self Hself) as [E _]. by rewrite E.
Qed.

Lemma WorkflowTask_init_task_kept task title priority description :
  preserves (task_kept task) (WorkflowTask_init title priority description).
Proof.
  intros w t Ht. rewrite WorkflowTask_init_eq. cbn.
  rewrite lookup_insert_ne; [by rewrite elapse_tasks|].
  intros E. apply (is_fresh (dom (tasks w))). rewrite E.
  apply elem_of_dom. by eexists.
Qed.

Lemma mark_completed_advances self :
  preserves completion_advances (mark_completed self).
Proof.
  intros w. pose proof (elapse_now w) as Hnow.
  destruct (tasks w !! self) as [t0|] eqn:Hself.
  - rewrite (mark_completed_eq _ _ _ Hself). cbn.
    intros l t d Ht Hd Hle. cbn.
    destruct (decide (l = self)) as [->|Hne].
    + rewrite lookup_insert_eq. eexists _, _.
      split; [reflexivity|]. split; [reflexivity|]. cbn. lia.
    + rewrite lookup_insert_ne by done. rewrite elapse_tasks.
      exists t, d. repeat split; (done || lia).
  - destruct (mark_completed_missing w self Hself) as [E Hn].
    intros l t d Ht Hd Hle. exists t, d. rewrite E, Hn.
    repeat split; (done || lia).
Qed.

Lemma WorkflowTask_init_advances title priority description :
  preserves completion_advances
    (WorkflowTask_init title priority description).
Proof.
  intros w. pose proof (elapse_now w) as Hnow.
  rewrite WorkflowTask_init_eq. cbn.
  intros l t d Ht Hd Hle. cbn. exists t, d.
  rewrite lookup_insert_ne.
  - rewrite elapse_tasks. repeat split; (done || lia).
  - intros E. apply (is_fresh (dom (tasks w))). rewrite E.
    apply elem_of_dom. by eexists.
Qed.

#[local] Hint Resolve time_time_later sleep_1000_later sleep_100_later
  load_task_later load_processor_later load_manager_later
  store_processor_later store_manager_later new_processor_later
  new_manager_later later_task_kept later_completion_advances
  mark_completed_task_kept WorkflowTask_init_task_kept
  mark_completed_advances WorkflowTask_init_advances : preserves.





(** * The claims of the specification *)

(** C1.  For every task and every processor, of whichever of the three
    classes, [process_task] returns; afterwards [get_status] of the task
    is ["completed"] and so is the ["status"] entry of the result.  The
    validation rule plays no part: the statement holds for each of its
    outcomes. *)
Theorem process_task_marks_completed w self task p t :
  processors w !! self = Some p →
  tasks w !! task = Some t →
  ∃ res w',
    process_task self task w = (Ret res, w') ∧
    get_status task w' = (Ret (PyStr "completed"), w') ∧
    res !! "status" = Some (PyStr "completed").
Proof.
  intros Hp Ht.
  destruct (process_task_spec w self task p t Hp Ht)
    as (w' & s & c & e & v & Hrun & _ & Htasks & _).
  exists (result_dict (PyStr "completed") (PyFloat (e - s)) (reported_name p) v), w'.
  split; [exact Hrun|]. split; [|apply result_dict_status].
  rewrite (get_status_eq w' task (completed t c)); [reflexivity|].
  rewrite Htasks. apply lookup_insert_eq.
Qed.

(** The Standard processor on the task titled ["AB"], which fails its
    validation. *)
Lemma process_task_marks_completed_witness :
  ∃ res w',
    process_task 1 2 office = (Ret res, w') ∧
    get_status 2 w' = (Ret (PyStr "completed"), w') ∧
    res !! "status" = Some (PyStr "completed").
Proof.
  apply (process_task_marks_completed office 1 2 (fresh_processor Standard) task_ab);
    reflexivity.
Defined.

(** C2.  [execute_task] raises if and only if the manager is in the
    invalid state: no processor set, or a processor whose reported name is
    none of ["urgent"], ["standard"], ["background"].  It then raises
    [ValueError("No strategy set")] and touches nothing.  Otherwise it
    returns the very dictionary, and leaves the very world, that
    [process_task] of the processor it holds does. *)
Theorem execute_task_guard w self task m t :
  managers w !! self = Some m →
  tasks w !! task = Some t →
  (∀ p, strategy m = Some p → is_Some (processors w !! p)) →
  ((∃ e w', execute_task self task w = (Raise e, w')) ↔ invalid_state w m) ∧
  (invalid_state w m →
   execute_task self task w = (Raise (ValueError "No strategy set"), w)) ∧
  (¬ invalid_state w m →
   ∃ p res w', strategy m = Some p ∧
               process_task p task w = (Ret res, w') ∧
               execute_task self task w = (Ret res, w')).
Proof.
  intros Hm Ht Hp. set (invalid_state := invalid_state w m).
  assert (Hnames : ∀ name : string,
             name ∉ Strategies.get_values ↔
             name ∉ ["urgent"; "standard"; "background"]).
  { intros name. unfold Strategies.get_values. cbn.
    rewrite !elem_of_cons, !elem_of_nil. tauto. }
  assert (Hraise : invalid_state →
            execute_task self task w = (Raise (ValueError "No strategy set"), w)).
  { intros [Hnone | (p & obj & Hs & Hobj & Hname)];
      unfold execute_task, load_manager; rewrite bind_eq, Hm.
    - by rewrite Hnone.
    - rewrite Hs, bind_eq, (str_eq _ _ _ Hobj).
      rewrite bool_decide_eq_true_2; [done | by apply Hnames]. }
  assert (Hret : ¬ invalid_state →
            ∃ p res w', strategy m = Some p ∧
                        process_task p task w = (Ret res, w') ∧
                        execute_task self task w = (Ret res, w')).
  { intros Hvalid.
    destruct (strategy m) as [p|] eqn:Hs; [|by destruct Hvalid; left].
    destruct (Hp p eq_refl) as [obj Hobj].
    destruct (process_task_spec w p task obj t Hobj Ht)
      as (w' & s & c & e & v & Hrun & _).
    eexists p, _, w'. split; [done|]. split; [exact Hrun|].
    unfold execute_task, load_manager. rewrite bind_eq, Hm, Hs.
    rewrite bind_eq, (str_eq _ _ _ Hobj).
    rewrite bool_decide_eq_false_2; [exact Hrun|].
    intros Hname. apply Hvalid. right. exists p, obj. by rewrite <- Hnames. }
  split; [|by split].
  split; [|intros H; rewrite (Hraise H); eauto].
  intros (e & w' & Hexec).
  destruct (decide (strategy m = None)) as [|Hsome]; [by left|].
  destruct (strategy m) as [p|] eqn:Hs; [|done].
  destruct (Hp p eq_refl) as [obj Hobj].
  destruct (decide (reported_name obj ∈ ["urgent"; "standard"; "background"]))
    as [Hin|Hout]; [|right; by exists p, obj].
  exfalso.
  assert (Hvalid : ¬ invalid_state).
  { intros [?|(p' & obj' & Hs' & Hobj' & Hname')]; [congruence|].
    assert (p' = p) as -> by congruence.
    assert (obj' = obj) as -> by congruence. done. }
  destruct (Hret Hvalid) as (? & ? & ? & _ & _ & Hexec').
  rewrite Hexec in Hexec'. discriminate.
Qed.

(** The manager that holds the processor named ["express"]. *)
Lemma execute_task_guard_witness :
  ((∃ e w', execute_task 3 0 office = (Raise e, w')) ↔
   invalid_state office (mkManager (Some 3))) ∧
  (invalid_state office (mkManager (Some 3)) →
   execute_task 3 0 office = (Raise (ValueError "No strategy set"), office)) ∧
  (¬ invalid_state office (mkManager (Some 3)) →
   ∃ p res w', strategy (mkManager (Some 3)) = Some p ∧
               process_task p 0 office = (Ret res, w') ∧
               execute_task 3 0 office = (Ret res, w')).
Proof.
  apply (execute_task_guard office 3 0 (mkManager (Some 3)) task_breach);
    [reflexivity | reflexivity |].
  intros p [= <-]. by eexists.
Defined.

(** C3.  The result of an Urgent processor has the boolean [True] under
    ["validation_passed"] if and only if the priority of the task is
    [URGENT] and its description is not empty; it has the boolean [False]
    there otherwise. *)
Theorem urgent_validation w self task p t :
  processors w !! self = Some p →
  class_of p = Urgent →
  tasks w !! task = Some t →
  ∃ res w' b,
    process_task self task w = (Ret res, w') ∧
    res !! "validation_passed" = Some (PyBool b) ∧
    (b = true ↔ priority t = TaskPriority.URGENT ∧ description t ≠ EmptyString).
Proof.
  intros Hp Hc Ht.
  destruct (process_task_spec w self task p t Hp Ht)
    as (w' & s & c & e & v & Hrun & Hv & _).
  unfold validate_task, load_processor in Hv. rewrite bind_eq, Hp, Hc in Hv.
  rewrite (urgent_validate_eq _ _ _ _ Ht) in Hv. injection Hv as <-.
  eexists _, w', _. split; [exact Hrun|].
  split; [apply result_dict_validation_passed|].
  unfold py_and. cbn.
  destruct (decide (priority t = TaskPriority.URGENT)) as [Hu|Hu].
  - rewrite (bool_decide_eq_true_2 _ Hu). cbn. rewrite bool_decide_eq_true. tauto.
  - rewrite (bool_decide_eq_false_2 _ Hu). cbn. split; [done | tauto].
Qed.

(** The Urgent processor on the task "Security breach". *)
Lemma urgent_validation_witness :
  ∃ res w' b,
    process_task 0 0 office = (Ret res, w') ∧
    res !! "validation_passed" = Some (PyBool b) ∧
    (b = true ↔
     priority task_breach = TaskPriority.URGENT ∧
     description task_breach ≠ EmptyString).
Proof.
  apply (urgent_validation office 0 0 (fresh_processor Urgent) task_breach);
    reflexivity.
Defined.

(** C4.  A Standard processor run on the task with the empty title,
    whose length is 0 < 3: the entry under ["validation_passed"] is the
    empty string, not the boolean [False]. *)
Theorem standard_empty_title :
  (process_task 1 3 office).1 =
    Ret (result_dict (PyStr "completed") (PyFloat 1000) "standard" (PyStr EmptyString)) ∧
  PyStr EmptyString ≠ PyBool false.
Proof. split; [reflexivity | discriminate]. Qed.




(** C6.  Two calls of [mark_completed] on a task both return.  After
    the first [completed_at] is the time [c1] of the first call; after the
    second it is the time [c2] of the second call, which replaces [c1] and
    is not before it. *)
Theorem mark_completed_twice w task t :
  tasks w !! task = Some t →
  ∃ w1 w2 c1 c2,
    mark_completed task w = (Ret (), w1) ∧
    tasks w1 !! task = Some (completed t c1) ∧
    mark_completed task w1 = (Ret (), w2) ∧
    tasks w2 !! task = Some (completed t c2) ∧
    c1 = now w1 ∧ c2 = now w2 ∧ (c1 ≤ c2)%Z.
Proof.
  intros Ht.
  rewrite (mark_completed_eq _ _ _ Ht).
  eexists _, _, _, _. split; [reflexivity|].
  split; [cbn; apply lookup_insert_eq|].
  erewrite mark_completed_eq by (cbn; apply lookup_insert_eq).
  split; [reflexivity|].
  split; [cbn; apply lookup_insert_eq|].
  cbn. split; [reflexivity|]. split; [reflexivity|].
  match goal with |- (_ ≤ now (elapse ?x))%Z => apply (elapse_now x) end.
Qed.

(** The task of [desk], marked completed twice more. *)
Lemma mark_completed_twice_witness :
  ∃ w1 w2 c1 c2,
    mark_completed 0 desk = (Ret (), w1) ∧
    tasks w1 !! 0 = Some (completed (completed task_docs 10) c1) ∧
    mark_completed 0 w1 = (Ret (), w2) ∧
    tasks w2 !! 0 = Some (completed (completed task_docs 10) c2) ∧
    c1 = now w1 ∧ c2 = now w2 ∧ (c1 ≤ c2)%Z.
Proof.
  apply (mark_completed_twice desk 0 (completed task_docs 10)). reflexivity.
Defined.

(** C7.  The manager that holds the Standard processor executes the task
    "Update docs" twice, then an Urgent processor that has not been used
    processes the same task.  On a clock that only [time.sleep] moves the
    second Standard result reports 0, as the Urgent one does; on a clock
    that loses 2 ms at each access it reports -2 against 4 for Urgent.
    The Urgent processing time is not below the Standard one. *)
Theorem reused_processor_processing_time :
  (twice_then_urgent 2 1 0 office).1 =
    Ret (result_dict (PyStr "completed") (PyFloat 1000) "standard" (PyBool true),
         result_dict (PyStr "completed") (PyFloat 0) "standard" (PyBool true),
         result_dict (PyStr "completed") (PyFloat 0) "urgent" (PyBool false)) ∧
  (twice_then_urgent 2 1 0 busy_office).1 =
    Ret (result_dict (PyStr "completed") (PyFloat 1006) "standard" (PyBool true),
         result_dict (PyStr "completed") (PyFloat (-2)) "standard" (PyBool true),
         result_dict (PyStr "completed") (PyFloat 4) "urgent" (PyBool false)).
Proof. split; reflexivity. Qed.




(** C9.  The manager that holds the Standard processor executes the task
    with the empty title twice on a clock that loses 2 ms at each access.
    Both results carry the empty string, which is no boolean, under
    ["validation_passed"]; the second carries -2, which is negative, under
    ["processing_time"]. *)
Theorem standard_result_shape :
  (twice_then_urgent 2 3 0 busy_office).1 =
    Ret (result_dict (PyStr "completed") (PyFloat 1006) "standard" (PyStr EmptyString),
         result_dict (PyStr "completed") (PyFloat (-2)) "standard" (PyStr EmptyString),
         result_dict (PyStr "completed") (PyFloat 4) "urgent" (PyBool false)) ∧
  is_bool (PyStr EmptyString) = false ∧
  is_nonneg_number (PyFloat (-2)) = false.
Proof. repeat split; vm_compute; reflexivity. Qed.



(** * Further properties of the module *)

(** ** Validation rules *)

(** X1.  The result of a Background processor has the boolean [True] under
    ["validation_passed"] if and only if the priority of the task is not
    [URGENT]; it has the boolean [False] there otherwise. *)
Theorem background_validation_rule w self task p t :
  processors w !! self = Some p →
  class_of p = Background →
  tasks w !! task = Some t →
  ∃ res w' b,
    process_task self task w = (Ret res, w') ∧
    res !! "validation_passed" = Some (PyBool b) ∧
    (b = true ↔ priority t ≠ TaskPriority.URGENT).
Proof.
  intros Hp Hc Ht.
  destruct (process_task_spec w self task p t Hp Ht)
    as (w' & s & c & e & v & Hrun & Hv & _).
  unfold validate_task, load_processor in Hv. rewrite bind_eq, Hp, Hc in Hv.
  rewrite (background_validate_eq _ _ _ _ Ht) in Hv. injection Hv as <-.
  eexists _, w', _. split; [exact Hrun|].
  split; [apply result_dict_validation_passed|].
  apply bool_decide_eq_true.
Qed.

Lemma background_validation_rule_witness :
  ∃ res w' b,
    process_task 2 0 office = (Ret res, w') ∧
    res !! "validation_passed" = Some (PyBool b) ∧
    (b = true ↔ priority task_breach ≠ TaskPriority.URGENT).
Proof.
  apply (background_validation_rule office 2 0 (fresh_processor Background)
           task_breach); reflexivity.
Defined.

(** X2.  The entry a Standard processor leaves under ["validation_passed"]
    is truthy exactly when the title has at least three characters; for a
    title that is not empty it is the boolean of that comparison. *)
Theorem standard_validation_rule w self task p t :
  processors w !! self = Some p →
  class_of p = Standard →
  tasks w !! task = Some t →
  ∃ res w' v,
    process_task self task w = (Ret res, w') ∧
    res !! "validation_passed" = Some v ∧
    (truthy v = true ↔ 3 ≤ String.length (title t)) ∧
    (title t ≠ EmptyString →
     v = PyBool (bool_decide (3 ≤ String.length (title t)))).
Proof.
  intros Hp Hc Ht.
  destruct (process_task_spec w self task p t Hp Ht)
    as (w' & s & c & e & v & Hrun & Hv & _).
  unfold validate_task, load_processor in Hv. rewrite bind_eq, Hp, Hc in Hv.
  rewrite (standard_validate_eq _ _ _ _ Ht) in Hv. injection Hv as <-.
  eexists _, w', _. split; [exact Hrun|].
  split; [apply result_dict_validation_passed|].
  unfold py_and. cbn.
  destruct (decide (title t = EmptyString)) as [He|He].
  - rewrite (bool_decide_eq_false_2 (title t ≠ EmptyString)) by tauto. cbn.
    rewrite He. cbn. split; [|done].
    rewrite (bool_decide_eq_false_2 (EmptyString ≠ EmptyString)) by tauto.
    split; [done | lia].
  - rewrite (bool_decide_eq_true_2 _ He). cbn.
    split; [apply bool_decide_eq_true | done].
Qed.

Lemma standard_validation_rule_witness :
  ∃ res w' v,
    process_task 1 2 office = (Ret res, w') ∧
    res !! "validation_passed" = Some v ∧
    (truthy v = true ↔ 3 ≤ String.length (title task_ab)) ∧
    (title task_ab ≠ EmptyString →
     v = PyBool (bool_decide (3 ≤ String.length (title task_ab)))).
Proof.
  apply (standard_validation_rule office 1 2 (fresh_processor Standard)
           task_ab); reflexivity.
Defined.

(** ** The life of a task *)

(** X3.  [WorkflowTask(title, priority, description)] yields an object
    that was not there before, with the attributes given, a [created_at]
    read off the clock and no [completed_at], so that [get_status] of it
    is [None]; every object that was there is as it was. *)
Theorem new_task_is_not_completed title priority description w :
  ∃ self w' created,
    WorkflowTask_init title priority description w = (Ret self, w') ∧
    tasks w !! self = None ∧
    tasks w' !! self =
      Some (mkTask title priority description (Datetime created) None) ∧
    (now w ≤ created ≤ now w')%Z ∧
    get_status self w' = (Ret PyNone, w') ∧
    (∀ other, other ≠ self → tasks w' !! other = tasks w !! other) ∧
    processors w' = processors w ∧
    managers w' = managers w.
Proof.
  rewrite WorkflowTask_init_eq. eexists _, _, _. split; [reflexivity|].
  split.
  { apply not_elem_of_dom, is_fresh. }
  split; [cbn; apply lookup_insert_eq|].
  split; [cbn; pose proof (elapse_now w); lia|].
  split.
  { erewrite get_status_eq by (cbn; apply lookup_insert_eq). reflexivity. }
  split.
  { intros other Hne. cbn. rewrite lookup_insert_ne by done.
    by rewrite elapse_tasks. }
  cbn. by rewrite elapse_processors, elapse_managers.
Qed.

(** X4.  [mark_completed] on a task returns; [get_status] of that task is
    then ["completed"], whatever it was before.  Only [completed_at] of
    that task has changed: its other attributes, the other tasks, the
    processors and the managers are as they were. *)
Theorem mark_completed_then_get_status w self t :
  tasks w !! self = Some t →
  ∃ w' c,
    mark_completed self w = (Ret (), w') ∧
    get_status self w' = (Ret (PyStr "completed"), w') ∧
    tasks w' = <[self := completed t c]> (tasks w) ∧
    (now w ≤ c)%Z ∧ c = now w' ∧
    processors w' = processors w ∧
    managers w' = managers w.
Proof.
  intros Ht. rewrite (mark_completed_eq _ _ _ Ht).
  eexists _, _. split; [reflexivity|].
  split.
  { erewrite get_status_eq by (cbn; apply lookup_insert_eq). reflexivity. }
  cbn. rewrite elapse_tasks, elapse_processors, elapse_managers.
  pose proof (elapse_now w). by repeat split.
Qed.

Lemma mark_completed_then_get_status_witness :
  ∃ w' c,
    mark_completed 2 busy_office = (Ret (), w') ∧
    get_status 2 w' = (Ret (PyStr "completed"), w') ∧
    tasks w' = <[2 := completed task_ab c]> (tasks busy_office) ∧
    (now busy_office ≤ c)%Z ∧ c = now w' ∧
    processors w' = processors busy_office ∧
    managers w' = managers busy_office.
Proof.
  apply (mark_completed_then_get_status busy_office 2 task_ab). reflexivity.
Defined.

(** ** The timer on its own *)



(** X6.  On a processor whose timer was never started, as its constructor
    leaves it, [get_processing_time] raises [TypeError]: it subtracts
    [None].  The timer has been stopped all the same: [end_time] is set. *)
Theorem get_processing_time_before_start c name w :
  ∃ self w1 msg w2 e,
    TaskProcessor_init c name w = (Ret self, w1) ∧
    get_processing_time self w1 = (Raise (TypeError msg), w2) ∧
    processors w2 !! self = Some (mkProcessor c name None (Some e)).
Proof.
  unfold TaskProcessor_init, new_processor.
  eexists _, _, _, _, _. split; [reflexivity|].
  unfold get_processing_time.
  rewrite bind_eq. unfold load_processor at 1. cbn. rewrite lookup_insert_eq.
  cbn. rewrite bind_eq.
  erewrite end_timer_eq by (cbn; apply lookup_insert_eq). cbn.
  rewrite bind_eq. unfold load_processor. cbn.
  rewrite lookup_insert_eq. cbn. split; [reflexivity|].
  apply lookup_insert_eq.
Qed.

(** ** The timer inside [process_task] *)

(** X7.  On a processor whose [end_time] is [None] - as its constructor
    leaves it, and as it stays until [end_timer], [get_processing_time]
    or [process_task] is called on it - [process_task] reports a
    processing time that is not negative. *)
Theorem first_call_processing_time w self task p t :
  processors w !! self = Some p →
  end_time p = None →
  tasks w !! task = Some t →
  ∃ res w' d,
    process_task self task w = (Ret res, w') ∧
    res !! "processing_time" = Some (PyFloat d) ∧
    (0 ≤ d)%Z.
Proof.
  intros Hp He Ht.
  destruct (process_task_spec w self task p t Hp Ht)
    as (w' & s & c & e & v & Hrun & _ & _ & _ & _ & Hs & Hc & Hw & Hend).
  rewrite He in Hend. destruct Hend as [Hce _].
  pose proof (latency_nonneg (class_of p)).
  eexists _, w', _. split; [exact Hrun|].
  split; [apply result_dict_processing_time | lia].
Qed.

Lemma first_call_processing_time_witness :
  ∃ res w' d,
    process_task 1 1 busy_office = (Ret res, w') ∧
    res !! "processing_time" = Some (PyFloat d) ∧
    (0 ≤ d)%Z.
Proof.
  apply (first_call_processing_time busy_office 1 1 (fresh_processor Standard)
           task_docs); reflexivity.
Defined.

(** X8.  A processor object that is used a second time, on the same task
    or on another, reports a processing time that is zero or negative:
    [end_time] is still the one of the first call, and the new
    [start_time] is not before it. *)
Theorem second_call_processing_time w self task1 task2 p t1 t2 :
  processors w !! self = Some p →
  end_time p = None →
  tasks w !! task1 = Some t1 →
  tasks w !! task2 = Some t2 →
  ∃ res1 w1 res2 w2 d,
    process_task self task1 w = (Ret res1, w1) ∧
    process_task self task2 w1 = (Ret res2, w2) ∧
    res2 !! "processing_time" = Some (PyFloat d) ∧
    (d ≤ 0)%Z.
Proof.
  intros Hp He Ht1 Ht2.
  destruct (process_task_spec w self task1 p t1 Hp Ht1)
    as (w1 & s & c & e & v & Hrun & _ & Htasks & Hprocs & _ & Hs & Hc & Hw
        & Hend).
  rewrite He in Hend. destruct Hend as [Hce ->].
  assert (Hp1 : processors w1 !! self =
                Some (mkProcessor (class_of p) (renamed p) (Some s)
                                  (Some (now w1)))).
  { rewrite Hprocs. apply lookup_insert_eq. }
  assert (Ht2' : ∃ t2', tasks w1 !! task2 = Some t2').
  { rewrite Htasks. destruct (decide (task1 = task2)) as [->|Hne].
    - rewrite lookup_insert_eq. by eexists.
    - rewrite lookup_insert_ne by done. by eexists. }
  destruct Ht2' as [t2' Ht2'].
  destruct (process_task_spec w1 self task2 _ t2' Hp1 Ht2')
    as (w2 & s2 & c2 & e2 & v2 & Hrun2 & _ & _ & _ & _ & Hs2 & _ & _ & Hend2).
  cbn in Hend2. subst e2.
  eexists _, w1, _, w2, _. split; [exact Hrun|]. split; [exact Hrun2|].
  split; [apply result_dict_processing_time | lia].
Qed.

Lemma second_call_processing_time_witness :
  ∃ res1 w1 res2 w2 d,
    process_task 2 0 busy_office = (Ret res1, w1) ∧
    process_task 2 1 w1 = (Ret res2, w2) ∧
    res2 !! "processing_time" = Some (PyFloat d) ∧
    (d ≤ 0)%Z.
Proof.
  apply (second_call_processing_time busy_office 2 0 1
           (fresh_processor Background) task_breach task_docs); reflexivity.
Defined.

(** ** The result *)

(** X10.  The dictionary [process_task] returns has exactly the four keys
    ["status"], ["processing_time"], ["strategy_used"] and
    ["validation_passed"]; the status is ["completed"], the processing
    time is a number, the strategy is the name the processor reports, and
    the validation entry is what [validate_task] answers for the task,
    a call that changes nothing. *)
Theorem result_of_process_task w self task p t :
  processors w !! self = Some p →
  tasks w !! task = Some t →
  ∃ res w' d v,
    process_task self task w = (Ret res, w') ∧
    dom res =
      {[ "status"; "processing_time"; "strategy_used"; "validation_passed" ]} ∧
    res !! "status" = Some (PyStr "completed") ∧
    res !! "processing_time" = Some (PyFloat d) ∧
    res !! "strategy_used" = Some (PyStr (reported_name p)) ∧
    res !! "validation_passed" = Some v ∧
    validate_task self task w = (Ret v, w).
Proof.
  intros Hp Ht.
  destruct (process_task_spec w self task p t Hp Ht)
    as (w' & s & c & e & v & Hrun & Hv & _).
  eexists _, w', _, v. split; [exact Hrun|].
  split; [apply result_dict_dom|]. by repeat split.
Qed.

Lemma result_of_process_task_witness :
  ∃ res w' d v,
    process_task 3 0 office = (Ret res, w') ∧
    dom res =
      {[ "status"; "processing_time"; "strategy_used"; "validation_passed" ]} ∧
    res !! "status" = Some (PyStr "completed") ∧
    res !! "processing_time" = Some (PyFloat d) ∧
    res !! "strategy_used" = Some (PyStr (reported_name express_processor)) ∧
    res !! "validation_passed" = Some v ∧
    validate_task 3 0 office = (Ret v, office).
Proof.
  apply (result_of_process_task office 3 0 express_processor task_breach);
    reflexivity.
Defined.

(** X11.  [process_task] leaves the processor with the class and the name
    it had and with both times of its timer set; no other processor is
    touched. *)
Theorem process_task_keeps_processors w self task p t :
  processors w !! self = Some p →
  tasks w !! task = Some t →
  ∃ res w' p',
    process_task self task w = (Ret res, w') ∧
    processors w' !! self = Some p' ∧
    class_of p' = class_of p ∧ renamed p' = renamed p ∧
    is_Some (start_time p') ∧ is_Some (end_time p') ∧
    ∀ other, other ≠ self → processors w' !! other = processors w !! other.
Proof.
  intros Hp Ht.
  destruct (process_task_spec w self task p t Hp Ht)
    as (w' & s & c & e & v & Hrun & _ & _ & Hprocs & _).
  eexists _, w', _. split; [exact Hrun|].
  rewrite Hprocs. split; [apply lookup_insert_eq|]. cbn.
  repeat split; try by eexists.
  intros other Hne. by rewrite lookup_insert_ne.
Qed.

Lemma process_task_keeps_processors_witness :
  ∃ res w' p',
    process_task 1 0 office = (Ret res, w') ∧
    processors w' !! 1 = Some p' ∧
    class_of p' = class_of (fresh_processor Standard) ∧
    renamed p' = renamed (fresh_processor Standard) ∧
    is_Some (start_time p') ∧ is_Some (end_time p') ∧
    ∀ other, other ≠ 1 → processors w' !! other = processors office !! other.
Proof.
  apply (process_task_keeps_processors office 1 0 (fresh_processor Standard)
           task_breach); reflexivity.
Defined.

(** ** The manager *)

Lemma set_strategy_eq w self s m :
  managers w !! self = Some m →
  set_strategy self s w =
    (Ret (), set_managers <[self := mkManager s]> w).
Proof.
  intros H. unfold set_strategy, load_manager, store_manager.
  by rewrite bind_eq, H.
Qed.

Lemma execute_task_eq w self task p obj :
  managers w !! self = Some (mkManager (Some p)) →
  processors w !! p = Some obj →
  reported_name obj ∈ Strategies.get_values →
  execute_task self task w = process_task p task w.
Proof.
  intros Hm Hp Hname. unfold execute_task, load_manager.
  rewrite bind_eq, Hm. cbn. rewrite bind_eq, (str_eq _ _ _ Hp).
  rewrite bool_decide_eq_false_2; [done | tauto].
Qed.

Lemma reference_name_recognised p :
  renamed p = None → reported_name p ∈ Strategies.get_values.
Proof.
  intros H. unfold reported_name. rewrite H.
  unfold Strategies.get_values. destruct (class_of p); cbn;
    rewrite !elem_of_cons; tauto.
Qed.

(** X12.  A manager that holds an instance of one of the three classes
    never raises from [execute_task] on a task: it returns a dictionary
    whose status is ["completed"] and whose strategy is ["urgent"],
    ["standard"] or ["background"] after the class. *)
Theorem execute_task_with_reference_processor w self task p obj t :
  managers w !! self = Some (mkManager (Some p)) →
  processors w !! p = Some obj →
  renamed obj = None →
  tasks w !! task = Some t →
  ∃ res w',
    execute_task self task w = (Ret res, w') ∧
    res !! "status" = Some (PyStr "completed") ∧
    res !! "strategy_used" =
      Some (PyStr match class_of obj with
                  | Urgent => "urgent"
                  | Standard => "standard"
                  | Background => "background"
                  end).
Proof.
  intros Hm Hp Hn Ht.
  rewrite (execute_task_eq _ _ _ _ _ Hm Hp (reference_name_recognised _ Hn)).
  destruct (process_task_spec w p task obj t Hp Ht)
    as (w' & s & c & e & v & Hrun & _).
  eexists _, w'. split; [exact Hrun|].
  split; [apply result_dict_status|].
  rewrite result_dict_strategy_used. unfold reported_name. rewrite Hn.
  by destruct (class_of obj).
Qed.

Lemma execute_task_with_reference_processor_witness :
  ∃ res w',
    execute_task 2 1 office = (Ret res, w') ∧
    res !! "status" = Some (PyStr "completed") ∧
    res !! "strategy_used" =
      Some (PyStr match class_of (fresh_processor Standard) with
                  | Urgent => "urgent"
                  | Standard => "standard"
                  | Background => "background"
                  end).
Proof.
  apply (execute_task_with_reference_processor office 2 1 1
           (fresh_processor Standard) task_docs); reflexivity.
Defined.

(** X13.  After [set_strategy], the next [execute_task] of the manager is
    the [process_task] of the processor just set, whatever the manager
    held before: the result names that processor under
    ["strategy_used"]. *)
Theorem set_strategy_takes_effect w self task p m obj t :
  managers w !! self = Some m →
  processors w !! p = Some obj →
  reported_name obj ∈ Strategies.get_values →
  tasks w !! task = Some t →
  ∃ w1 res w2,
    set_strategy self (Some p) w = (Ret (), w1) ∧
    execute_task self task w1 = (Ret res, w2) ∧
    process_task p task w1 = (Ret res, w2) ∧
    res !! "strategy_used" = Some (PyStr (reported_name obj)).
Proof.
  intros Hm Hp Hname Ht.
  rewrite (set_strategy_eq _ _ _ _ Hm).
  destruct (process_task_spec
              (set_managers <[self := mkManager (Some p)]> w) p task obj t Hp Ht)
    as (w' & s & c & e & v & Hrun & _).
  eexists _, _, w'. split; [reflexivity|].
  erewrite execute_task_eq;
    [| cbn; apply lookup_insert_eq | exact Hp | exact Hname].
  split; [exact Hrun|]. split; [exact Hrun|].
  apply result_dict_strategy_used.
Qed.

Lemma set_strategy_takes_effect_witness :
  ∃ w1 res w2,
    set_strategy 1 (Some 2) office = (Ret (), w1) ∧
    execute_task 1 1 w1 = (Ret res, w2) ∧
    process_task 2 1 w1 = (Ret res, w2) ∧
    res !! "strategy_used" =
      Some (PyStr (reported_name (fresh_processor Background))).
Proof.
  apply (set_strategy_takes_effect office 1 1 2 (mkManager (Some 0))
           (fresh_processor Background) task_docs); try reflexivity.
  apply reference_name_recognised. reflexivity.
Defined.

(** X14.  A manager constructed without a strategy is a new object, and
    [execute_task] of it raises [ValueError("No strategy set")] for any
    task, leaving the world as the construction left it: the task is not
    completed and no clock is read. *)
Theorem manager_without_strategy_raises w task :
  ∃ self w',
    TaskManager_init None w = (Ret self, w') ∧
    managers w !! self = None ∧
    execute_task self task w' = (Raise (ValueError "No strategy set"), w') ∧
    tasks w' = tasks w ∧ processors w' = processors w ∧
    now w' = now w ∧ lag w' = lag w ∧
    ∀ other, other ≠ self → managers w' !! other = managers w !! other.
Proof.
  unfold TaskManager_init, new_manager.
  eexists _, _. split; [reflexivity|].
  split; [apply not_elem_of_dom, is_fresh|].
  split.
  { unfold execute_task, load_manager. rewrite bind_eq. cbn.
    by rewrite lookup_insert_eq. }
  cbn. repeat split. intros other Hne. by rewrite lookup_insert_ne.
Qed.

(** X15.  [set_strategy] changes the manager it is called on and nothing
    else, and the last call wins: setting one strategy and then another
    leaves the world that setting the second alone leaves.  The argument
    may be a processor or [None]. *)
Theorem set_strategy_last_wins w self s1 s2 m :
  managers w !! self = Some m →
  ∃ w1 w2,
    set_strategy self s1 w = (Ret (), w1) ∧
    set_strategy self s2 w1 = (Ret (), w2) ∧
    set_strategy self s2 w = (Ret (), w2) ∧
    managers w2 !! self = Some (mkManager s2) ∧
    (∀ other, other ≠ self → managers w2 !! other = managers w !! other) ∧
    tasks w2 = tasks w ∧ processors w2 = processors w ∧
    now w2 = now w ∧ lag w2 = lag w.
Proof.
  intros Hm. rewrite !(set_strategy_eq _ _ _ _ Hm).
  eexists _, _. split; [reflexivity|].
  split.
  { erewrite set_strategy_eq by (cbn; apply lookup_insert_eq).
    unfold set_managers. cbn. by rewrite insert_insert_eq. }
  split; [reflexivity|]. cbn.
  split; [apply lookup_insert_eq|].
  repeat split. intros other Hne. by rewrite lookup_insert_ne.
Qed.

Lemma set_strategy_last_wins_witness :
  ∃ w1 w2,
    set_strategy 0 (Some 1) office = (Ret (), w1) ∧
    set_strategy 0 (Some 2) w1 = (Ret (), w2) ∧
    set_strategy 0 (Some 2) office = (Ret (), w2) ∧
    managers w2 !! 0 = Some (mkManager (Some 2)) ∧
    (∀ other, other ≠ 0 → managers w2 !! other = managers office !! other) ∧
    tasks w2 = tasks office ∧ processors w2 = processors office ∧
    now w2 = now office ∧ lag w2 = lag office.
Proof.
  apply (set_strategy_last_wins office 0 (Some 1) (Some 2) (mkManager None)).
  reflexivity.
Defined.

(** ** Call sequences *)

(** X16.  Whatever calls are made, a task stays in the store with the
    title, priority, description and [created_at] it was constructed
    with. *)
Theorem task_attributes_never_change cs w task t :
  tasks w !! task = Some t →
  ∃ t', tasks (run cs w) !! task = Some t' ∧
        title t' = title t ∧ priority t' = priority t ∧
        description t' = description t ∧ created_at t' = created_at t.
Proof.
  intros Ht.
  destruct (preserves_run tasks_evolve cs perform_tasks w task t Ht)
    as (t' & Ht' & ? & ? & ? & ? & _).
  by exists t'.
Qed.

Lemma task_attributes_never_change_witness :
  ∃ t', tasks (run [ExecuteTask 1 0; ProcessTask 1 0; MarkCompleted 0;
                    NewTask "AB" TaskPriority.LOW "x";
                    ExecuteTask 2 0] busy_office) !! 0 = Some t' ∧
        title t' = title task_breach ∧ priority t' = priority task_breach ∧
        description t' = description task_breach ∧
        created_at t' = created_at task_breach.
Proof.
  apply (task_attributes_never_change _ busy_office 0 task_breach).
  reflexivity.
Defined.

Lemma perform_other_manager c w manager m :
  managers w !! manager = Some m →
  ¬ sets_strategy_of manager c →
  managers (perform c w) !! manager = Some m.
Proof.
  intros Hm Hc.
  destruct c; unfold perform;
    try (match goal with
         | |- managers (?f w).2 !! _ = _ =>
             let H := fresh in
             assert (H : preserves managers_same f) by methods;
             rewrite (H w); exact Hm
         end).
  - unfold TaskManager_init, new_manager. cbn.
    rewrite lookup_insert_ne; [done|].
    intros E. apply (is_fresh (dom (managers w))). rewrite E.
    by apply elem_of_dom.
  - destruct (decide (manager0 = manager)) as [->|Hne].
    + destruct Hc. by eexists.
    + unfold set_strategy, load_manager, store_manager. rewrite bind_eq.
      destruct (managers w !! manager0); cbn; [|done].
      by rewrite lookup_insert_ne.
Qed.

(** X17.  Only [set_strategy] on a manager changes the strategy it holds:
    through any sequence of calls none of which is a [set_strategy] on
    that manager, the manager holds what it held. *)
Theorem only_set_strategy_changes_strategy cs w manager m :
  managers w !! manager = Some m →
  Forall (λ c, ¬ sets_strategy_of manager c) cs →
  managers (run cs w) !! manager = Some m.
Proof.
  intros Hm Hcs. revert w Hm. unfold run.
  induction Hcs as [|c cs Hc _ IH]; intros w Hm; cbn; [done|].
  apply IH. by apply perform_other_manager.
Qed.

Lemma only_set_strategy_changes_strategy_witness :
  managers (run [ExecuteTask 1 0; SetStrategy 2 (Some 0); NewManager None;
                 ExecuteTask 0 1; ProcessTask 0 1] office) !! 1 =
  Some (mkManager (Some 0)).
Proof.
  apply (only_set_strategy_changes_strategy _ office 1 (mkManager (Some 0)));
    [reflexivity|].
  repeat constructor; intros [s [=]].
Defined.

#[local] Instance processors_kept_preorder : PreOrder processors_kept.
Proof.
  split.
  - intros w l p H. by exists p.
  - intros w1 w2 w3 H12 H23 l p H.
    destruct (H12 l p H) as (p2 & H2 & ? & ?).
    destruct (H23 l p2 H2) as (p3 & H3 & ? & ?).
    exists p3. repeat split; congruence.
Qed.

Lemma processors_kept_same w w' :
  processors w' = processors w → processors_kept w w'.
Proof. intros E l p H. exists p. by rewrite E. Qed.

(** A statement that leaves the processor store alone. *)
Ltac frame_processors :=
  intros w; apply processors_kept_same; cbn;
  repeat match goal with
         | |- context [match ?x with _ => _ end] => destruct x
         end;
  cbn; rewrite ?elapse_processors; reflexivity.

Lemma time_time_processors : preserves processors_kept time_time.
Proof. frame_processors. Qed.

Lemma time_sleep_processors ms : preserves processors_kept (time_sleep ms).
Proof. frame_processors. Qed.

Lemma load_task_processors l : preserves processors_kept (load_task l).
Proof.
  intros w; apply processors_kept_same; unfold load_task.
  by destruct (tasks w !! l).
Qed.

Lemma load_processor_processors l :
  preserves processors_kept (load_processor l).
Proof.
  intros w; apply processors_kept_same; unfold load_processor.
  by destruct (processors w !! l).
Qed.

Lemma load_manager_processors l : preserves processors_kept (load_manager l).
Proof.
  intros w; apply processors_kept_same; unfold load_manager.
  by destruct (managers w !! l).
Qed.

Lemma store_task_processors l t : preserves processors_kept (store_task l t).
Proof. frame_processors. Qed.

Lemma store_manager_processors l m :
  preserves processors_kept (store_manager l m).
Proof. frame_processors. Qed.

Lemma new_task_processors t : preserves processors_kept (new_task t).
Proof. frame_processors. Qed.

Lemma new_manager_processors m : preserves processors_kept (new_manager m).
Proof. frame_processors. Qed.

Lemma new_processor_processors p : preserves processors_kept (new_processor p).
Proof.
  intros w l p0 H. cbn. exists p0. split; [|done].
  rewrite lookup_insert_ne; [done|].
  intros <-. apply (is_fresh (dom (processors w))). by apply elem_of_dom.
Qed.

Lemma set_start_time_processors self v :
  preserves processors_kept (set_start_time self v).
Proof.
  intros w. unfold set_start_time, load_processor. rewrite bind_eq.
  destruct (processors w !! self) as [p|] eqn:E; cbn; [|reflexivity].
  intros l p0 H. cbn. destruct (decide (l = self)) as [->|Hne].
  - rewrite lookup_insert_eq. eexists; split; [done|].
    rewrite E in H. by injection H as <-.
  - rewrite lookup_insert_ne by done. by exists p0.
Qed.

Lemma set_end_time_processors self v :
  preserves processors_kept (set_end_time self v).
Proof.
  intros w. unfold set_end_time, load_processor. rewrite bind_eq.
  destruct (processors w !! self) as [p|] eqn:E; cbn; [|reflexivity].
  intros l p0 H. cbn. destruct (decide (l = self)) as [->|Hne].
  - rewrite lookup_insert_eq. eexists; split; [done|].
    rewrite E in H. by injection H as <-.
  - rewrite lookup_insert_ne by done. by exists p0.
Qed.

#[local] Hint Resolve time_time_processors time_sleep_processors
  load_task_processors load_processor_processors load_manager_processors
  store_task_processors store_manager_processors new_task_processors
  new_manager_processors new_processor_processors set_start_time_processors
  set_end_time_processors : preserves.

(** Walks through a method body whose statements are in the hint base. *)
Ltac walk := repeat (solve [eauto with preserves] || preserves_step).

Lemma perform_processors c w : processors_kept w (perform c w).
Proof.
  destruct c; unfold perform;
    match goal with
    | |- _ _ (?m w).2 => revert w; change (preserves processors_kept m)
    end;
    unfold execute_task, process_task, validate_task,
      UrgentTaskProcessor.process_task, StandardTaskProcessor.process_task,
      BackgroundTaskProcessor.process_task,
      UrgentTaskProcessor.validate_task, StandardTaskProcessor.validate_task,
      BackgroundTaskProcessor.validate_task,
      get_processing_time, start_timer, end_timer, str, get_status,
      mark_completed, set_completed_at, set_strategy, WorkflowTask_init,
      TaskProcessor_init, TaskManager_init, datetime_now;
    walk.
Qed.

(** X18.  Whatever calls are made, a processor stays in the store with
    the class it was constructed with and the name it reports: only the
    two times of its timer ever change. *)
Theorem processor_class_never_changes cs w self p :
  processors w !! self = Some p →
  ∃ p', processors (run cs w) !! self = Some p' ∧
        class_of p' = class_of p ∧ reported_name p' = reported_name p.
Proof.
  intros Hp.
  destruct (preserves_run processors_kept cs perform_processors w self p Hp)
    as (p' & Hp' & Hc & Hn).
  exists p'. split; [done|]. split; [done|].
  unfold reported_name. by rewrite Hc, Hn.
Qed.

Lemma processor_class_never_changes_witness :
  ∃ p', processors (run [ExecuteTask 2 0; StartTimer 1; ProcessTask 1 3;
                         NewProcessor Urgent None; GetProcessingTime 1]
                        busy_office) !! 1 = Some p' ∧
        class_of p' = class_of (fresh_processor Standard) ∧
        reported_name p' = reported_name (fresh_processor Standard).
Proof.
  apply (processor_class_never_changes _ busy_office 1
           (fresh_processor Standard)).
  reflexivity.
Defined.

#[local] Instance keeps_timestamps_ordered_preorder :
  PreOrder keeps_timestamps_ordered.
Proof.
  split.
  - intros w. split; [done | lia].
  - intros w1 w2 w3 [H12 L12] [H23 L23]. split; [auto | lia].
Qed.

Lemma timestamps_ordered_later w w' :
  tasks w' = tasks w → (now w ≤ now w')%Z → keeps_timestamps_ordered w w'.
Proof.
  intros E Hnow. split; [|done].
  intros Hw l t Ht. rewrite E in Ht. destruct (Hw l t Ht) as [Hc Hd].
  split; [lia|]. intros d Hcd. specialize (Hd d Hcd). lia.
Qed.

(** A statement that leaves the task store alone and does not set the
    clock back. *)
Ltac frame_timestamps :=
  intros w; apply timestamps_ordered_later; cbn;
  repeat match goal with
         | |- context [match ?x with _ => _ end] => destruct x
         end;
  cbn; rewrite ?elapse_tasks; try reflexivity;
  try (pose proof (elapse_now w); lia).

Lemma time_time_timestamps : preserves keeps_timestamps_ordered time_time.
Proof. frame_timestamps. Qed.

Lemma time_sleep_timestamps ms :
  (0 ≤ ms)%Z → preserves keeps_timestamps_ordered (time_sleep ms).
Proof. intros Hms. frame_timestamps. Qed.

Lemma sleep_1000_timestamps :
  preserves keeps_timestamps_ordered (time_sleep 1000).
Proof. apply time_sleep_timestamps. lia. Qed.

Lemma sleep_100_timestamps :
  preserves keeps_timestamps_ordered (time_sleep 100).
Proof. apply time_sleep_timestamps. lia. Qed.

Lemma load_task_timestamps l : preserves keeps_timestamps_ordered (load_task l).
Proof.
  intros w; apply timestamps_ordered_later; unfold load_task;
    destruct (tasks w !! l); cbn; (reflexivity || lia).
Qed.

Lemma load_processor_timestamps l :
  preserves keeps_timestamps_ordered (load_processor l).
Proof.
  intros w; apply timestamps_ordered_later; unfold load_processor;
    destruct (processors w !! l); cbn; (reflexivity || lia).
Qed.

Lemma load_manager_timestamps l :
  preserves keeps_timestamps_ordered (load_manager l).
Proof.
  intros w; apply timestamps_ordered_later; unfold load_manager;
    destruct (managers w !! l); cbn; (reflexivity || lia).
Qed.

Lemma store_processor_timestamps l p :
  preserves keeps_timestamps_ordered (store_processor l p).
Proof. frame_timestamps. Qed.

Lemma store_manager_timestamps l m :
  preserves keeps_timestamps_ordered (store_manager l m).
Proof. frame_timestamps. Qed.

Lemma new_processor_timestamps p :
  preserves keeps_timestamps_ordered (new_processor p).
Proof. frame_timestamps. Qed.

Lemma new_manager_timestamps m :
  preserves keeps_timestamps_ordered (new_manager m).
Proof. frame_timestamps. Qed.

Lemma mark_completed_timestamps self :
  preserves keeps_timestamps_ordered (mark_completed self).
Proof.
  intros w. pose proof (elapse_now w) as Hnow.
  destruct (tasks w !! self) as [t|] eqn:Ht.
  - rewrite (mark_completed_eq _ _ _ Ht). cbn. split; [|done].
    intros Hw l t0 Ht0. cbn in Ht0. rewrite elapse_tasks in Ht0.
    destruct (decide (l = self)) as [->|Hne].
    + rewrite lookup_insert_eq in Ht0. injection Ht0 as <-. cbn.
      destruct (Hw self t Ht) as [Hc _].
      split; [lia|]. intros d [= <-]. cbn. lia.
    + rewrite lookup_insert_ne in Ht0 by done.
      destruct (Hw l t0 Ht0) as [Hc Hd]. cbn.
      split; [lia|]. intros d Hcd. specialize (Hd d Hcd). lia.
  - apply timestamps_ordered_later.
    + unfold mark_completed, set_completed_at, datetime_now, time_time,
        load_task.
      repeat (rewrite bind_eq || (progress cbn)).
      rewrite elapse_tasks, Ht. cbn. by rewrite elapse_tasks.
    + unfold mark_completed, set_completed_at, datetime_now, time_time,
        load_task.
      repeat (rewrite bind_eq || (progress cbn)).
      by rewrite elapse_tasks, Ht.
Qed.

Lemma WorkflowTask_init_timestamps title priority description :
  preserves keeps_timestamps_ordered
    (WorkflowTask_init title priority description).
Proof.
  intros w. pose proof (elapse_now w) as Hnow.
  rewrite WorkflowTask_init_eq. cbn. split; [|done].
  intros Hw l t Ht. cbn in Ht. rewrite elapse_tasks in Ht.
  destruct (decide (l = fresh (dom (tasks w)))) as [->|Hne].
  - rewrite lookup_insert_eq in Ht. injection Ht as <-. cbn.
    split; [lia | done].
  - rewrite lookup_insert_ne in Ht by done.
    destruct (Hw l t Ht) as [Hc Hd]. cbn.
    split; [lia|]. intros d Hcd. specialize (Hd d Hcd). lia.
Qed.

#[local] Hint Resolve time_time_timestamps sleep_1000_timestamps
  sleep_100_timestamps load_task_timestamps load_processor_timestamps
  load_manager_timestamps store_processor_timestamps store_manager_timestamps
  new_processor_timestamps new_manager_timestamps mark_completed_timestamps
  WorkflowTask_init_timestamps : preserves.

Lemma perform_timestamps c w : keeps_timestamps_ordered w (perform c w).
Proof.
  destruct c; unfold perform;
    match goal with
    | |- _ _ (?m w).2 =>
        revert w; change (preserves keeps_timestamps_ordered m)
    end;
    unfold execute_task, process_task, validate_task,
      UrgentTaskProcessor.process_task, StandardTaskProcessor.process_task,
      BackgroundTaskProcessor.process_task,
      UrgentTaskProcessor.validate_task, StandardTaskProcessor.validate_task,
      BackgroundTaskProcessor.validate_task,
      get_processing_time, start_timer, end_timer, set_start_time,
      set_end_time, str, get_status, set_strategy, TaskProcessor_init,
      TaskManager_init;
    walk.
Qed.

(** X19.  On the clock of the model, which never runs backwards: if no
    task was created in the future and none was completed before its
    creation or in the future, the same holds after any sequence of
    calls, and the clock is not earlier than it was. *)
Theorem timestamps_stay_ordered cs w :
  timestamps_ordered w →
  timestamps_ordered (run cs w) ∧ (now w ≤ now (run cs w))%Z.
Proof.
  intros Hw.
  destruct (preserves_run keeps_timestamps_ordered cs perform_timestamps w)
    as [H Hnow].
  auto.
Qed.

Lemma timestamps_stay_ordered_witness :
  timestamps_ordered
    (run [MarkCompleted 0; NewTask "Fix" TaskPriority.HIGH "x";
          NewProcessor Standard None; ProcessTask 0 1] desk) ∧
  (now desk ≤
   now (run [MarkCompleted 0; NewTask "Fix" TaskPriority.HIGH "x";
             NewProcessor Standard None; ProcessTask 0 1] desk))%Z.
Proof.
  apply (timestamps_stay_ordered _ desk).
  intros l t Ht. change (tasks desk) with
    ({[ 0 := completed task_docs 10 ]} : gmap nat WorkflowTask) in Ht.
  apply lookup_singleton_Some in Ht as [<- <-]. cbn.
  split; [lia|]. intros d [= <-]. cbn. lia.
Defined.
